(** * recollector_ai: the point-cloud viewer and the image-to-3D proxy

    A shallow embedding of [360view_direct.py] (module [Viewer]) and of
    [app_flask.py] (module [Proxy]), followed by the properties of the
    natural-language specification that are settled on them.

    Python exceptions are values of [exn]; a computation that may raise
    returns [res A].  Every library the two scripts call (numpy's random
    generator, Flask's request object, the [requests] client, base64,
    trimesh, the file system) appears as an explicit argument, so that
    the statements quantify over everything the environment may do. *)

From Stdlib Require Import ZArith Reals Lra Lia String Ascii.
From Stdlib Require Import Floats.SpecFloat.
From stdpp Require Import base option list.

Local Open Scope string_scope.
Set Warnings "-register-all".

(** ** Python results and exceptions *)

Module Py.

(** The exception classes the two scripts can meet.  [RuntimeError] is
    the only one a handler tells apart (see [Proxy]); the text of the
    others is whatever the raising library chose. *)
Inductive exn : Type :=
  | RuntimeError (msg : string)
  | ValueError (msg : string)
  | IndexError (msg : string)
  | AttributeError (msg : string)
  | TypeError (msg : string)
  | OtherError (msg : string).

(** [str(e)] *)
Definition str (e : exn) : string :=
  match e with
  | RuntimeError m | ValueError m | IndexError m
  | AttributeError m | TypeError m | OtherError m => m
  end.

Inductive res (A : Type) : Type :=
  | Ok (a : A)
  | Raise (e : exn).
Arguments Ok {A} a.
Arguments Raise {A} e.

#[global] Instance res_ret : MRet res := λ A a, Ok a.
#[global] Instance res_bind : MBind res := λ A B k m,
  match m with
  | Ok a => k a
  | Raise e => Raise e
  end.

End Py.

(** ** 360view_direct.py *)

Module Viewer.
Import Py.

(** *** numpy's sampler

    [np.random.choice(n, size, replace=False)] on the legacy global
    generator is the first [size] entries of a shuffled [arange(n)];
    the shuffle walks [i] from [n-1] down to [1] and exchanges [x[i]]
    with [x[j]] for a fresh [j] in [0..i].  The generator itself is the
    argument [draw]: [draw i] is the raw number it hands out at loop
    index [i]. *)

Definition swap (i j : nat) (x : list nat) : list nat :=
  match x !! i, x !! j with
  | Some a, Some b => <[i := b]> (<[j := a]> x)
  | _, _ => x
  end.

Fixpoint shuffle (draw : nat → nat) (i : nat) (x : list nat) : list nat :=
  match i with
  | O => x
  | S i' => shuffle draw i' (swap i (draw i mod S i) x)
  end.

Definition permutation (draw : nat → nat) (n : nat) : list nat :=
  shuffle draw (pred n) (seq 0 n).

Definition choice (draw : nat → nat) (n : nat) (size : Z) : res (list nat) :=
  if (size <? 0)%Z then Raise (ValueError "negative dimensions are not allowed")
  else if (Z.of_nat n <? size)%Z then
    Raise (ValueError "Cannot take a larger sample than population when 'replace=False'")
  else Ok (take (Z.to_nat size) (permutation draw n)).

(** The transposition of positions [i] and [j]: an exchange of two
    entries reads the old list through it (see [swap_lookup]). *)
Definition transpose (i j k : nat) : nat :=
  if decide (k = i) then j else if decide (k = j) then i else k.

(** [a[idx]] for an index array [idx] of non-negative entries: one row
    per index, [IndexError] as soon as one is out of bounds. *)
Definition index_by {A} (a : list A) (idx : list nat) : res (list A) :=
  match mapM (λ i, a !! i) idx with
  | Some rows => Ok rows
  | None => Raise (IndexError "index out of bounds")
  end.

(** [downsample(pts, cols, max_points)] (lines 67-74).  [cols] is [None]
    when the file carried no colours. *)
Definition downsample {P C} (draw : nat → nat)
    (pts : list P) (cols : option (list C)) (max_points : Z)
  : res (list P * option (list C)) :=
  if (max_points <? Z.of_nat (length pts))%Z then
    idx ← choice draw (length pts) max_points;
    pts' ← index_by pts idx;
    cols' ← match cols with
            | Some cs => cs' ← index_by cs idx; Ok (Some cs')
            | None => Ok None
            end;
    Ok (pts', cols')
  else Ok (pts, cols).

(** *** Point inversion (lines 96-105)

    Positions are float64 triples; a float64 is a [spec_float], the
    IEEE-754 datum of the Standard Library, and unary minus on it is
    [SFopp]. *)

Definition vec3f : Type := spec_float * spec_float * spec_float.

Definition neg3 (p : vec3f) : vec3f :=
  let '(x, y, z) := p in (SFopp x, SFopp y, SFopp z).

(** [-pts] *)
Definition negate (pts : list vec3f) : list vec3f := neg3 <$> pts.

(** What [show_open3d_viewer] hands to the renderer as
    [pcd.points] and [pcd.colors]. *)
Definition scene_points {C} (invert : bool) (pts : list vec3f) (cols : option (list C))
  : list vec3f * option (list C) :=
  let pts := if invert then negate pts else pts in
  (pts, cols).

(** *** Camera (lines 149-181)

    The camera arithmetic calls [tan] and [sqrt]; it is carried out
    over the real numbers. *)

Local Open Scope R_scope.

Record args : Type := {
  width : Z;
  height : Z;
  fov : Z;
  distance : R;
}.

(** The window and camera entries of [QUICK_SETTINGS] *)
Definition default_args : args :=
  {| width := 1400; height := 900; fov := 100; distance := 0 |}.

(** [PinholeCameraIntrinsic] after [set_intrinsics(w, h, fx, fy, cx, cy)] *)
Record intrinsic : Type := {
  i_width : Z;
  i_height : Z;
  fx : R;
  fy : R;
  cx : R;
  cy : R;
}.

(** [np.radians] *)
Definition radians (deg : R) : R := deg * PI / 180.

Definition focal_length (a : args) : R :=
  IZR (width a) / (2 * tan (radians (IZR (fov a) / 2))).

Definition camera_intrinsic (a : args) : intrinsic :=
  {| i_width := width a;
     i_height := height a;
     fx := focal_length a;
     fy := focal_length a;
     cx := IZR (width a) / 2;
     cy := IZR (height a) / 2 |}.

(** A numpy matrix, read by row and column; entries outside the shape
    are never read. *)
Definition mat : Type := nat → nat → R.
Definition vec3 : Type := R * R * R.

(** [m[i, j] = v] *)
Definition mset (m : mat) (i j : nat) (v : R) : mat :=
  λ a b, if (a =? i)%nat && (b =? j)%nat then v else m a b.

(** [m[:3, j]] and [m[:3, j] = v] *)
Definition col (m : mat) (j : nat) : vec3 := (m 0 j, m 1 j, m 2 j)%nat.
Definition set_col (m : mat) (j : nat) (v : vec3) : mat :=
  let '(x, y, z) := v in mset (mset (mset m 0 j x) 1 j y) 2 j z.

Definition eye : mat := λ a b, if (a =? b)%nat then 1 else 0.

(** [np.linalg.norm], [v / s], [np.cross] *)
Definition norm (v : vec3) : R :=
  let '(x, y, z) := v in sqrt (x * x + y * y + z * z).
Definition vdiv (v : vec3) (s : R) : vec3 :=
  let '(x, y, z) := v in (x / s, y / s, z / s).
Definition cross (u v : vec3) : vec3 :=
  let '(u0, u1, u2) := u in
  let '(v0, v1, v2) := v in
  (u1 * v2 - u2 * v1, u2 * v0 - u0 * v2, u0 * v1 - u1 * v0).

(** The start pose: identity rotation, translation [-R @ (0, 0, distance)]. *)
Definition initial_extrinsic (a : args) : mat :=
  mset (mset (mset eye 0 3 (- 0)) 1 3 (- 0)) 2 3 (- distance a).

Definition eps : R := 1 / 10000000000.

(** [lock_vertical_rotation] (lines 189-225): from the extrinsic read off
    the view control to the extrinsic written back, in the four steps
    the source marks with comments.  [R], [up] and the first [forward]
    are views: a store into them is a store into [extrinsic], written
    here as one [mset] per store, in program order. *)

(** [extrinsic[1, 3] = initial_y] *)
Definition lock_height (initial_y : R) (e : mat) : mat := mset e 1 3 initial_y.

(** [up = R[:, 1]; up[0] = 0.0; up[2] = 0.0;
     up[1] = -1.0 if up[1] < 0 else 1.0; R[:, 1] = up / np.linalg.norm(up)] *)
Definition lock_up (e : mat) : mat :=
  let e := mset e 0 1 0 in
  let e := mset e 2 1 0 in
  let e := mset e 1 1 (if Rlt_dec (e 1 1)%nat 0 then -1 else 1) in
  set_col e 1 (vdiv (col e 1) (norm (col e 1))).

(** [forward = R[:, 2]; forward[1] = 0.0;
     forward = forward / (np.linalg.norm(forward) + 1e-10); R[:, 2] = forward] *)
Definition lock_forward (e : mat) : mat :=
  let e := mset e 1 2 0 in
  set_col e 2 (vdiv (col e 2) (norm (col e 2) + eps)).

(** [right = np.cross(up, forward); right = right / (np.linalg.norm(right) + 1e-10);
     R[:, 0] = right], where [up] is column 1 and [forward] column 2 of
    what has been stored so far. *)
Definition lock_right (e : mat) : mat :=
  let right := cross (col e 1) (col e 2) in
  set_col e 0 (vdiv right (norm right + eps)).

Definition lock_vertical_rotation (initial_y : R) (extrinsic : mat) : mat :=
  lock_right (lock_forward (lock_up (lock_height initial_y extrinsic))).

(** A rigid camera frame: the three columns of the rotation block are
    orthonormal and right-handed. *)
Definition dot (u v : vec3) : R :=
  let '(u0, u1, u2) := u in
  let '(v0, v1, v2) := v in
  u0 * v0 + u1 * v1 + u2 * v2.

Definition rigid (e : mat) : Prop :=
  dot (col e 0) (col e 0) = 1 ∧ dot (col e 1) (col e 1) = 1 ∧
  dot (col e 2) (col e 2) = 1 ∧ dot (col e 0) (col e 1) = 0 ∧
  dot (col e 0) (col e 2) = 0 ∧ dot (col e 1) (col e 2) = 0 ∧
  col e 0 = cross (col e 1) (col e 2).

(** Horizontally level at height [initial_y]: up column [(0, ±1, 0)],
    forward column without vertical component. *)
Definition level (initial_y : R) (e : mat) : Prop :=
  (col e 1 = (0, 1, 0) ∨ col e 1 = (0, -1, 0)) ∧
  e 1%nat 2%nat = 0 ∧
  e 1%nat 3%nat = initial_y.

End Viewer.


(** ** app_flask.py *)

Module Proxy.
Import Py.

Definition bytes : Type := list Byte.byte.

(** *** Python values

    What [json.loads] can return and [jsonify] can send.  [JObj] lists
    the items of a dict, one per key. *)
Inductive json : Type :=
  | JNull
  | JBool (b : bool)
  | JInt (z : Z)
  | JFloat (f : spec_float)
  | JStr (s : string)
  | JArr (items : list json)
  | JObj (fields : list (string * json)).

(** [bool(v)] *)
Definition truthy (v : json) : bool :=
  match v with
  | JNull => false
  | JBool b => b
  | JInt z => negb (z =? 0)%Z
  | JFloat (S754_zero _) => false
  | JFloat _ => true
  | JStr s => negb (s =? "")
  | JArr items => negb (bool_decide (items = []))
  | JObj fields => negb (bool_decide (fields = []))
  end.

(** [d.get(k)] on a dict or a MultiDict kept as an association list *)
Fixpoint assoc {V} (k : string) (d : list (string * V)) : option V :=
  match d with
  | [] => None
  | (k', v) :: d' => if k =? k' then Some v else assoc k d'
  end.

(** [type(v).__name__] *)
Definition type_name (v : json) : string :=
  match v with
  | JNull => "NoneType"
  | JBool _ => "bool"
  | JInt _ => "int"
  | JFloat _ => "float"
  | JStr _ => "str"
  | JArr _ => "list"
  | JObj _ => "dict"
  end.

(** [v or {}] *)
Definition or_empty (v : json) : json := if truthy v then v else JObj [].

(** [v.get(k, default)]: only a dict has the method. *)
Definition get (v : json) (k : string) (dflt : json) : res json :=
  match v with
  | JObj d => Ok (default dflt (assoc k d))
  | _ => Raise (AttributeError ("'" ++ type_name v ++ "' object has no attribute 'get'"))
  end.

(** [s.lower()] on the ASCII letters; no other code point lower-cases
    to one of the letters the handlers compare against. *)
Definition lower_ascii (c : ascii) : ascii :=
  let n := nat_of_ascii c in
  if (65 <=? n)%nat && (n <=? 90)%nat then ascii_of_nat (n + 32) else c.

Fixpoint lower (s : string) : string :=
  match s with
  | EmptyString => EmptyString
  | String c s' => String (lower_ascii c) (lower s')
  end.

(** [s.startswith(p)] *)
Definition startswith (s p : string) : bool := String.prefix p s.

(** ["," in s] and [s.split(",", 1)[1]] in one pass: what follows the
    first comma, if there is one. *)
Fixpoint after_comma (s : string) : option string :=
  match s with
  | EmptyString => None
  | String c s' => if Ascii.eqb c "," then Some s' else after_comma s'
  end.

(** [os.path.join(a, b)] for POSIX paths *)
Fixpoint ends_with_slash (s : string) : bool :=
  match s with
  | EmptyString => false
  | String c EmptyString => Ascii.eqb c "/"
  | String _ s' => ends_with_slash s'
  end.

Definition path_join (a b : string) : string :=
  if startswith b "/" then b
  else if (a =? "") || ends_with_slash a then a ++ b
  else a ++ "/" ++ b.

(** *** Flask's request object *)

Record file_storage : Type := {
  filename : option string;
  read : bytes;
}.

Record request : Type := {
  content_type : option string;
  (** Flask's verdict on the mimetype: [application/json] or
      [application/*+json], hence never on a multipart body *)
  is_json : bool;
  (** the body as JSON, [None] when it does not parse *)
  json_body : option json;
  form : list (string * string);
  files : list (string * file_storage);
  args : list (string * string);
}.

(** [request.json]: the parsed body, an HTTP exception when the body is
    not announced as JSON or does not parse. *)
Definition request_json (r : request) : res json :=
  if is_json r then
    match json_body r with
    | Some v => Ok v
    | None => Raise (OtherError "400 Bad Request: Failed to decode JSON object")
    end
  else Raise (OtherError "415 Unsupported Media Type").

(** [request.get_json(silent=True)] *)
Definition get_json_silent (r : request) : json :=
  if is_json r then default JNull (json_body r) else JNull.

(** *** The world outside the process *)

Record response : Type := {
  status_code : nat;
  (** [resp.json()], [None] when the body does not parse *)
  resp_json : option json;
  text : string;
  content : bytes;
}.

(** [resp.ok] *)
Definition ok (resp : response) : bool :=
  negb ((400 <=? status_code resp)%nat && (status_code resp <? 600)%nat).

Definition json_of (resp : response) : res json :=
  match resp_json resp with
  | Some v => Ok v
  | None => Raise (OtherError "Expecting value")
  end.

Inductive net_call : Type :=
  | Post (url : string) (headers : list (string * string)) (payload : json) (timeout : nat)
  | Get (url : string) (headers : list (string * string)) (timeout : nat).

Record env : Type := {
  MESHY_API_KEY : option string;
  MESHY_API_URL : string;
  OUTPUTS_DIR : string;
  UPLOADS_DIR : string;
  (** the remote side: its answer to a call, given the calls made before *)
  upstream : list net_call → net_call → res response;
  (** [base64.b64decode] and [base64.b64encode(..).decode("utf-8")] *)
  b64decode : string → res bytes;
  b64encode : bytes → string;
  (** [trimesh.load(.., file_type="glb")] then [export(.., file_type=fmt)] *)
  convert : bytes → string → res bytes;
  (** whether [os.makedirs] and a write to a path go through *)
  makedirs_ok : string → bool;
  write_ok : string → bool;
  (** time stamp and uuid prefix of an upload *)
  up_id : string;
}.

Record world : Type := {
  trace : list net_call;
  metas : list (string * json);
  uploads : list (string * bytes);
}.

(** *** Handlers run in a state-and-exception monad over [world] *)

Record M (A : Type) : Type := mkM { run : world → res A * world }.
Arguments mkM {A} run.
Arguments run {A} m w.

#[global] Instance M_ret : MRet M := λ A a, mkM (λ w, (Ok a, w)).
#[global] Instance M_bind : MBind M := λ A B k m,
  mkM (λ w, match run m w with
            | (Ok a, w') => run (k a) w'
            | (Raise e, w') => (Raise e, w')
            end).

Definition lift {A} (r : res A) : M A := mkM (λ w, (r, w)).

(** [requests.post] / [requests.get]: the call is issued, then answered. *)
Definition http (E : env) (c : net_call) : M response :=
  mkM (λ w, (upstream E (trace w) c,
             {| trace := trace w ++ [c]; metas := metas w; uploads := uploads w |})).

(** A write that is allowed to fail silently ([try: ... except: pass]). *)
Definition write_meta (E : env) (path : string) (meta : json) : M unit :=
  mkM (λ w, (Ok (),
             if write_ok E path
             then {| trace := trace w; metas := metas w ++ [(path, meta)]; uploads := uploads w |}
             else w)).

Definition write_upload (E : env) (path : string) (data : bytes) : M unit :=
  mkM (λ w, (Ok (),
             if write_ok E path
             then {| trace := trace w; metas := metas w; uploads := uploads w ++ [(path, data)] |}
             else w)).

(** *** What a handler returns *)

Inductive body : Type :=
  | JsonBody (j : json)
  | FileBody (data : bytes) (mimetype : string) (download_name : string).

Record http_response : Type := {
  code : nat;
  payload_of : body;
}.

(** [jsonify({...}), code] *)
Definition json_response (c : nat) (fields : list (string * json)) : http_response :=
  {| code := c; payload_of := JsonBody (JObj fields) |}.

(** [send_file(io.BytesIO(data), mimetype=.., download_name=..)] *)
Definition send_file (data : bytes) (mimetype name : string) : http_response :=
  {| code := 200; payload_of := FileBody data mimetype name |}.

(** The two [except] clauses every handler ends with. *)
Definition handle (m : M http_response) (w : world) : http_response * world :=
  match run m w with
  | (Ok resp, w') => (resp, w')
  | (Raise (RuntimeError msg), w') => (json_response 500 [("error", JStr msg)], w')
  | (Raise e, w') =>
      (json_response 500 [("error", JStr "Internal server error"); ("detail", JStr (str e))], w')
  end.

(** [x in (a, b, ...)] on strings, [v == s] for a string [s] *)
Definition str_in (s : string) (l : list string) : bool := existsb (String.eqb s) l.
Definition is_str (s : string) (v : json) : bool :=
  match v with
  | JStr s' => s' =? s
  | _ => false
  end.

Definition no_image_msg : string :=
  "No image provided. Use multipart 'image' or JSON 'image_base64'/'image_url'.".

Definition no_key_msg : string :=
  "MESHY_API_KEY가 설정되지 않았습니다. 환경 변수나 .env 파일에 키를 추가해주세요.".

(** lines 52-57 *)
Definition _meshy_headers (E : env) : res (list (string * string)) :=
  match MESHY_API_KEY E with
  | Some key =>
      if key =? "" then Raise (RuntimeError no_key_msg)
      else Ok [("Authorization", "Bearer " ++ key)]
  | None => Raise (RuntimeError no_key_msg)
  end.

(** lines 60-68; [os.path.join] rejects a [task_id] that is not a string. *)
Definition _save_meta (E : env) (task_id : json) (meta : json) : M unit :=
  match task_id with
  | JStr id =>
      let task_dir := path_join (OUTPUTS_DIR E) id in
      if makedirs_ok E task_dir
      then write_meta E (path_join task_dir "meta.json") meta
      else lift (Raise (OtherError "makedirs failed"))
  | _ => lift (Raise (TypeError "expected str, bytes or os.PathLike object"))
  end.

(** *** POST /api/process-image *)

(** lines 172-179 *)
Definition get_flag (r : request) (name : string) (dflt : bool) : res bool :=
  if is_json r then
    j ← request_json r;
    val ← get (or_empty j) name (JBool dflt);
    Ok (truthy val)
  else
    Ok (match assoc name (form r) with
        | Some s => str_in (lower s) ["1"; "true"; "on"; "yes"]
        | None => dflt
        end).

(** lines 186-192 *)
Definition parse_ai_model (r : request) : res json :=
  if is_json r then
    j ← request_json r;
    get (or_empty j) "ai_model" (JStr "latest")
  else Ok (JStr (default "latest" (assoc "ai_model" (form r)))).

Definition validate_ai_model (ai_model : json) : string :=
  match ai_model with
  | JStr s => if str_in s ["latest"; "meshy-5"] then s else "latest"
  | _ => "latest"
  end.

Record image_input : Type := {
  image_bytes : option bytes;
  image_data_url : option json;
  original_filename : option string;
}.

Definition no_image : image_input :=
  {| image_bytes := None; image_data_url := None; original_filename := None |}.

Definition is_multipart (r : request) : bool :=
  match content_type r with
  | Some ct => startswith ct "multipart/form-data"
  | None => false
  end.

(** lines 208-212 on a truthy [b64]: strip the prefix, decode.  Only a
    string survives the comma test and the decoder. *)
Definition decode_b64 (E : env) (b64 : json) : res bytes :=
  match b64 with
  | JStr s => b64decode E (default s (after_comma s))
  | JArr items =>
      if existsb (is_str ",") items
      then Raise (AttributeError "'list' object has no attribute 'split'")
      else Raise (TypeError
                    "argument should be a bytes-like object or ASCII string, not 'list'")
  | JObj fields =>
      if existsb (λ kv, fst kv =? ",") fields
      then Raise (AttributeError "'dict' object has no attribute 'split'")
      else Raise (TypeError
                    "argument should be a bytes-like object or ASCII string, not 'dict'")
  | _ => Raise (TypeError ("argument of type '" ++ type_name b64 ++ "' is not iterable"))
  end.

(** lines 195-217; [None] stands for the early 415 answer. *)
Definition parse_image (E : env) (r : request) : res (option image_input) :=
  if is_multipart r then
    match assoc "image" (files r) with
    | Some file =>
        match filename file with
        | Some name =>
            if name =? "" then Ok (Some no_image)
            else Ok (Some {| image_bytes := Some (read file);
                             image_data_url := None;
                             original_filename := Some name |})
        | None => Ok (Some no_image)
        end
    | None => Ok (Some no_image)
    end
  else if is_json r then
    let data := or_empty (get_json_silent r) in
    b64 ← get data "image_base64" JNull;
    image_url_direct ← get data "image_url" JNull;
    if truthy b64 then
      decoded ← decode_b64 E b64;
      Ok (Some {| image_bytes := Some decoded;
                  image_data_url := None;
                  original_filename := None |})
    else if truthy image_url_direct then
      Ok (Some {| image_bytes := None;
                  image_data_url := Some image_url_direct;
                  original_filename := None |})
    else Ok (Some no_image)
  else Ok None.

(** lines 222-225: the URL that is forwarded *)
Definition data_url (E : env) (img : image_input) : json :=
  match image_data_url img, image_bytes img with
  | Some u, _ => u
  | None, Some data => JStr ("data:image/png;base64," ++ b64encode E data)
  | None, None => JNull
  end.

(** lines 228-235 *)
Definition persist_upload (E : env) (img : image_input) : M unit :=
  match image_bytes img with
  | Some data =>
      write_upload E
        (path_join (UPLOADS_DIR E)
           (up_id E ++ "_" ++ default "upload" (original_filename img) ++ ".bin"))
        data
  | None => mret ()
  end.

Definition options (enable_pbr should_remesh should_texture : bool) (ai_model : string)
  : list (string * json) :=
  [("enable_pbr", JBool enable_pbr);
   ("should_remesh", JBool should_remesh);
   ("should_texture", JBool should_texture);
   ("ai_model", JStr ai_model)].

(** lines 238-244 *)
Definition job_payload (E : env) (img : image_input)
    (enable_pbr should_remesh should_texture : bool) (ai_model : string) : json :=
  JObj (("image_url", data_url E img)
        :: options enable_pbr should_remesh should_texture ai_model).

(** lines 260-268 *)
Definition job_meta (img : image_input)
    (enable_pbr should_remesh should_texture : bool) (ai_model : string) : json :=
  JObj [("original_filename",
         match original_filename img with Some n => JStr n | None => JNull end);
        ("options", JObj (options enable_pbr should_remesh should_texture ai_model))].

(** lines 246-271: the remote creation, once the request has been read *)
Definition create_job (E : env) (img : image_input)
    (enable_pbr should_remesh should_texture : bool) (ai_model : string) : M http_response :=
  let payload := job_payload E img enable_pbr should_remesh should_texture ai_model in
  headers ← lift (_meshy_headers E);
  resp ← http E (Post (MESHY_API_URL E) headers payload 60);
  if negb (ok resp) then
    let detail := default (JObj [("text", JStr (text resp))]) (resp_json resp) in
    mret (json_response (status_code resp)
            [("error", JStr "Meshy create failed"); ("detail", detail)])
  else
    j ← lift (json_of resp);
    task_id ← lift (get (or_empty j) "result" JNull);
    if negb (truthy task_id) then
      mret (json_response 502 [("error", JStr "Invalid Meshy response"); ("detail", j)])
    else
      _ ← _save_meta E task_id
            (job_meta img enable_pbr should_remesh should_texture ai_model);
      mret (json_response 202 [("task_id", task_id)]).

(** lines 170-276 *)
Definition process_image (E : env) (r : request) : world → http_response * world :=
  handle (
    enable_pbr ← lift (get_flag r "enable_pbr" true);
    should_remesh ← lift (get_flag r "should_remesh" true);
    should_texture ← lift (get_flag r "should_texture" true);
    ai_model ← lift (parse_ai_model r);
    let ai_model := validate_ai_model ai_model in
    parsed ← lift (parse_image E r);
    match parsed with
    | None => mret (json_response 415 [("error", JStr "Unsupported content type")])
    | Some img =>
        match image_bytes img, image_data_url img with
        | None, None =>
            mret (json_response 400 [("error", JStr no_image_msg)])
        | _, _ =>
            _ ← persist_upload E img;
            create_job E img enable_pbr should_remesh should_texture ai_model
        end
    end).

(** *** GET /api/status/<task_id> (lines 313-334) *)
Definition get_status (E : env) (task_id : string) : world → http_response * world :=
  handle (
    let url := MESHY_API_URL E ++ "/" ++ task_id in
    headers ← lift (_meshy_headers E);
    resp ← http E (Get url headers 30);
    if negb (ok resp) then
      let detail := default (JObj [("text", JStr (text resp))]) (resp_json resp) in
      mret (json_response (status_code resp)
              [("error", JStr "Meshy status failed"); ("detail", detail)])
    else
      j ← lift (json_of resp);
      let data := or_empty j in
      status ← lift (get data "status" JNull);
      progress ← lift (get data "progress" JNull);
      message ← lift (get data "message" JNull);
      model_urls ← lift (get data "model_urls" JNull);
      mret (json_response 200
              [("status", status); ("progress", progress);
               ("message", message); ("model_urls", model_urls)])).

(** *** GET /api/result/<task_id> (lines 367-420) *)

(** [requests.get(model_url, timeout=180)]: the client refuses a URL
    that is not a string before it sends anything. *)
Definition fetch (E : env) (model_url : json) : M response :=
  match model_url with
  | JStr url => http E (Get url [] 180)
  | _ => lift (Raise (OtherError "Invalid URL"))
  end.

Definition fmt_of (r : request) : string :=
  lower (match assoc "format" (args r) with
         | Some f => if f =? "" then "glb" else f
         | None => "glb"
         end).

Definition get_result (E : env) (r : request) (task_id : string)
  : world → http_response * world :=
  let fmt := fmt_of r in
  if negb (str_in fmt ["glb"; "obj"; "ply"]) then
    λ w, (json_response 400
            [("error", JStr "Unsupported format");
             ("allowed", JArr [JStr "glb"; JStr "obj"; JStr "ply"])], w)
  else handle (
    let status_url := MESHY_API_URL E ++ "/" ++ task_id in
    headers ← lift (_meshy_headers E);
    sresp ← http E (Get status_url headers 30);
    if negb (ok sresp) then
      mret (json_response (status_code sresp) [("error", JStr "Failed to get status from Meshy")])
    else
      j ← lift (json_of sresp);
      let sdata := or_empty j in
      status ← lift (get sdata "status" JNull);
      if negb (is_str "SUCCEEDED" status) then
        mret (json_response 409 [("error", JStr "Job not completed"); ("status", status)])
      else
        model_urls ← lift (get sdata "model_urls" JNull);
        model_url ← lift (get (or_empty model_urls) "glb" JNull);
        if negb (truthy model_url) then
          mret (json_response 502 [("error", JStr "GLB URL missing in Meshy response")])
        else
          mresp ← fetch E model_url;
          let glb_bytes := content mresp in
          if fmt =? "glb" then
            mret (send_file glb_bytes "model/gltf-binary" (task_id ++ ".glb"))
          else
            match convert E glb_bytes fmt with
            | Ok out_bytes =>
                mret (send_file out_bytes "application/octet-stream" (task_id ++ "." ++ fmt))
            | Raise ce =>
                mret (json_response 500
                        [("error", JStr ("Conversion to " ++ fmt ++ " failed"));
                         ("detail", JStr (str ce))])
            end).

(** *** Reading a request

    The notions the statements below use to describe a request: what
    counts as a body the handlers can read fields from, and what counts
    as an image source. *)

(** A body [v] such that [v or {}] is a dict. *)
Definition dict_like (v : json) : bool :=
  match or_empty v with
  | JObj _ => true
  | _ => false
  end.

(** The field [k] of a body, Python's [None] when absent or when the
    body has no fields. *)
Definition field (v : json) (k : string) : json :=
  match v with
  | JObj d => default JNull (assoc k d)
  | _ => JNull
  end.

(** The fields of a body as the handlers see them. *)
Definition fields_of (v : json) : list (string * json) :=
  match or_empty v with
  | JObj d => d
  | _ => []
  end.

(** A multipart upload under the name [image] with a file name. *)
Definition has_file (r : request) : bool :=
  match assoc "image" (files r) with
  | Some f => match filename f with
              | Some n => negb (n =? "")
              | None => false
              end
  | None => false
  end.

(** A JSON body with a non-empty [image_base64] or [image_url]. *)
Definition has_json_image (r : request) : bool :=
  match json_body r with
  | Some v => truthy (field v "image_base64") || truthy (field v "image_url")
  | None => false
  end.

Definition empty_world : world := {| trace := []; metas := []; uploads := [] |}.

(** The world after one more call, the status call of a task, where a
    task's metadata goes, and a computation that issues no call. *)
Definition called (w : world) (c : net_call) : world :=
  {| trace := trace w ++ [c]; metas := metas w; uploads := uploads w |}.

Definition status_call (E : env) (h : list (string * string)) (id : string) : net_call :=
  Get (MESHY_API_URL E ++ "/" ++ id) h 30.

Definition meta_path (E : env) (id : string) : string :=
  path_join (path_join (OUTPUTS_DIR E) id) "meta.json".

Definition quiet {A} (m : M A) : Prop := ∀ w, trace (run m w).2 = trace w.

(** *** A sample environment

    A remote side that accepts every job as ["task-1"] and reports it
    [PENDING], a codec that leaves the text as it is, a converter that
    leaves the bytes as they are, a disk that takes every write. *)
Definition sample_upstream (history : list net_call) (c : net_call) : res response :=
  match c with
  | Post _ _ _ _ =>
      Ok {| status_code := 200;
            resp_json := Some (JObj [("result", JStr "task-1")]);
            text := ""; content := [] |}
  | Get _ _ _ =>
      Ok {| status_code := 200;
            resp_json := Some (JObj [("status", JStr "PENDING"); ("progress", JInt 10)]);
            text := ""; content := [] |}
  end.

Definition sample_env (key : option string) : env :=
  {| MESHY_API_KEY := key;
     MESHY_API_URL := "https://api.meshy.ai/openapi/v1/image-to-3d";
     OUTPUTS_DIR := "data/outputs";
     UPLOADS_DIR := "data/uploads";
     upstream := sample_upstream;
     b64decode := λ s, Ok (list_byte_of_string s);
     b64encode := string_of_list_byte;
     convert := λ data _, Ok data;
     makedirs_ok := λ _, true;
     write_ok := λ _, true;
     up_id := "20250101_000000_deadbeef" |}.

Definition json_request (body : json) : request :=
  {| content_type := Some "application/json"; is_json := true;
     json_body := Some body; form := []; files := []; args := [] |}.

Definition query_request (query : list (string * string)) : request :=
  {| content_type := None; is_json := false;
     json_body := None; form := []; files := []; args := query |}.

Definition multipart_request (uploads : list (string * file_storage)) : request :=
  {| content_type := Some "multipart/form-data; boundary=x"; is_json := false;
     json_body := None; form := []; files := uploads; args := [] |}.

(** A body with both image fields *)
Definition both_body : json :=
  JObj [("image_url", JStr "http://x/y.png");
        ("image_base64", JStr "data:image/png;base64,QUJD")].

End Proxy.

(** ** 360view_direct.py: loading, the viewer call and the entry point *)

Module ViewerMain.
Import Py Viewer.

(** *** Colours (lines 59-61)

    A colour channel is a uint8; [vc[:, :3] / 255.0] turns it into a
    float64 and divides it by 255.0 in IEEE binary64 arithmetic, round
    to nearest even. *)

Definition prec : Z := 53.
Definition emax : Z := 1024.

Definition of_uint8 (b : Byte.byte) : spec_float :=
  binary_normalize prec emax (Z.of_N (Byte.to_N b)) 0 false.

Definition f255 : spec_float := binary_normalize prec emax 255 0 false.

Definition channel (b : Byte.byte) : spec_float := SFdiv prec emax (of_uint8 b) f255.

Definition rgba : Type := Byte.byte * Byte.byte * Byte.byte * Byte.byte.

(** one row of [vc[:, :3] / 255.0] *)
Definition rgb (row : rgba) : vec3f :=
  let '(r, g, b, _) := row in (channel r, channel g, channel b).

(** 0.0 <= x <= 1.0 as float64 comparisons *)
Definition in_unit (x : spec_float) : bool :=
  SFleb (S754_zero false) x && SFleb x (SFone prec emax).

(** *** What the script is given from outside *)

(** What [trimesh.load] hands back: the vertices and, when the visual
    carries them, one RGBA row per vertex. *)
Record mesh : Type := {
  vertices : list vec3f;
  vertex_colors : option (list rgba);
}.

(** [bgcolor_map.get(args.bgcolor, (0.0, 0.0, 0.0))] (lines 129-135) *)
Definition background_of (name : string) : R * R * R :=
  if name =? "black" then (0, 0, 0)%R
  else if name =? "white" then (1, 1, 1)%R
  else if name =? "gray" then (1 / 2, 1 / 2, 1 / 2)%R
  else if name =? "darkgray" then (1 / 5, 1 / 5, 1 / 5)%R
  else (0, 0, 0)%R.

(** Everything the renderer is handed before [vis.run()]. *)
Record scene : Type := {
  points : list vec3f;
  colors : option (list vec3f);
  background_color : R * R * R;
  point_size : R;
  show_coordinate_frame : bool;
  extrinsic : mat;
  camera : intrinsic;
  (** whether [lock_vertical_rotation] is registered as the per-frame callback *)
  horizontal_lock : bool;
}.

Record host : Type := {
  (** [Path(p).exists()] *)
  path_exists : string → bool;
  (** [trimesh.load(p, process=False)] and the reads of its attributes *)
  trimesh_load : string → res mesh;
  (** the raw draws of numpy's global generator *)
  draw : nat → nat;
  (** the Open3D window, from its creation until it is closed *)
  render : scene → res unit;
}.

(** The parsed command line (lines 266-363) *)
Record cli : Type := {
  ply : string;
  max_points : Z;
  size : R;
  bgcolor : string;
  invert : bool;
  axis : bool;
  horizontal_only : bool;
  view : args;
}.

(** [QUICK_SETTINGS] (lines 24-45) as the defaults of the parser *)
Definition default_cli : cli :=
  {| ply := "image360_2.ply"; max_points := 3000000; size := 10%R;
     bgcolor := "black"; invert := true; axis := true;
     horizontal_only := false; view := default_args |}.

(** How a step of [main] ends: [main] tells a missing file from every
    other exception. *)
Inductive outcome (A : Type) : Type :=
  | Done (a : A)
  | FileNotFoundError (msg : string)
  | Failed (e : exn).
Arguments Done {A} a.
Arguments FileNotFoundError {A} msg.
Arguments Failed {A} e.

(** [load_ply] (lines 50-64) *)
Definition load_ply (H : host) (ply_path : string)
  : outcome (list vec3f * option (list vec3f)) :=
  if negb (path_exists H ply_path) then
    FileNotFoundError ("PLY 파일을 찾을 수 없습니다: " ++ ply_path)
  else
    match trimesh_load H ply_path with
    | Raise e => Failed e
    | Ok m =>
        Done (vertices m,
              match vertex_colors m with
              | Some vc => Some (rgb <$> vc)
              | None => None
              end)
    end.

(** [show_open3d_viewer] (lines 77-249): the bounding box is only
    printed, but taking the minimum of an empty array raises; then the
    scene is assembled and shown.  The second component lists what was
    handed to the renderer. *)
Definition show_open3d_viewer (H : host)
    (pts : list vec3f) (cols : option (list vec3f)) (a : cli)
  : res unit * list scene :=
  match pts with
  | [] =>
      (Raise (ValueError
                "zero-size array to reduction operation minimum which has no identity"),
       [])
  | _ =>
      let '(pts, cols) := scene_points (invert a) pts cols in
      let sc := {| points := pts;
                   colors := cols;
                   background_color := background_of (bgcolor a);
                   point_size := size a;
                   show_coordinate_frame := axis a;
                   extrinsic := initial_extrinsic (view a);
                   camera := camera_intrinsic (view a);
                   horizontal_lock := horizontal_only a |} in
      (render H sc, [sc])
  end.

(** [main] (lines 252-392): the exit code and what was shown. *)
Definition main (H : host) (a : cli) : Z * list scene :=
  match load_ply H (ply a) with
  | FileNotFoundError _ => (1%Z, [])
  | Failed _ => (1%Z, [])
  | Done (pts, cols) =>
      match downsample (draw H) pts cols (max_points a) with
      | Raise _ => (1%Z, [])
      | Ok (pts, cols) =>
          match show_open3d_viewer H pts cols a with
          | (Ok _, shown) => (0%Z, shown)
          | (Raise _, shown) => (1%Z, shown)
          end
      end
  end.

(** [np.sign]-like choice of line 207 *)
Definition up_sign (y : R) : R := if Rlt_dec y 0 then (-1)%R else 1%R.

(** [H @ (x, y, z, 1)], first three rows *)
Definition transform (m : mat) (p : vec3) : vec3 :=
  let '(x, y, z) := p in
  let row (i : nat) : R := (m i 0%nat * x + m i 1%nat * y + m i 2%nat * z + m i 3%nat)%R in
  (row 0%nat, row 1%nat, row 2%nat).

(** A sample host: a two-point coloured cloud, a window that closes
    normally. *)
Definition sample_mesh : mesh :=
  {| vertices := [(S754_zero false, S754_zero false, SFone prec emax);
                  (SFone prec emax, S754_zero false, S754_zero false)];
     vertex_colors := Some [(Byte.xff, Byte.x00, Byte.x80, Byte.xff);
                            (Byte.x00, Byte.xff, Byte.x00, Byte.xff)] |}.

Definition sample_host : host :=
  {| path_exists := λ p, p =? "image360_2.ply";
     trimesh_load := λ _, Ok sample_mesh;
     draw := λ i, i;
     render := λ _, Ok () |}.

(** Every channel of a colour lies in [0, 1]. *)
Definition unit_colour (c : vec3f) : Prop :=
  let '(r, g, b) := c in
  in_unit r = true ∧ in_unit g = true ∧ in_unit b = true.

End ViewerMain.

(** ** app_flask.py: the remaining handler and notions for the proxy *)

Module ProxyMore.
Import Py Proxy.

(** GET /health (lines 71-88) *)
Definition health (w : world) : http_response * world :=
  (json_response 200 [("status", JStr "ok"); ("service", JStr "image-to-3d-backend")], w).

(** The header a non-empty key gives. *)
Definition auth (key : string) : list (string * string) :=
  [("Authorization", "Bearer " ++ key)].

(** The model fetch of a result. *)
Definition model_call (url : string) : net_call := Get url [] 180.

(** A JSON request with the given form-free body and a multipart
    request with one uploaded file and the given form. *)
Definition upload_request (name : string) (data : bytes)
    (fields : list (string * string)) : request :=
  {| content_type := Some "multipart/form-data; boundary=x"; is_json := false;
     json_body := None; form := fields;
     files := [("image", {| filename := Some name; read := data |})]; args := [] |}.

(** A remote side whose job has succeeded: the status carries a model
    URL and the URL serves three bytes. *)
Definition done_upstream (history : list net_call) (c : net_call) : res response :=
  match c with
  | Get _ (_ :: _) _ =>
      Ok {| status_code := 200;
            resp_json := Some (JObj [("status", JStr "SUCCEEDED");
                                     ("model_urls", JObj [("glb", JStr "https://cdn/m.glb")])]);
            text := ""; content := [] |}
  | _ =>
      Ok {| status_code := 200; resp_json := None; text := "";
            content := [Byte.x67; Byte.x6c; Byte.x54] |}
  end.

Definition done_env : env :=
  {| MESHY_API_KEY := Some "k";
     MESHY_API_URL := "https://api.meshy.ai/openapi/v1/image-to-3d";
     OUTPUTS_DIR := "data/outputs";
     UPLOADS_DIR := "data/uploads";
     upstream := done_upstream;
     b64decode := λ s, Ok (list_byte_of_string s);
     b64encode := string_of_list_byte;
     convert := λ data _, Ok data;
     makedirs_ok := λ _, true;
     write_ok := λ _, true;
     up_id := "20250101_000000_deadbeef" |}.

Definition failing_env : env :=
  {| MESHY_API_KEY := Some "k";
     MESHY_API_URL := "https://api.meshy.ai/openapi/v1/image-to-3d";
     OUTPUTS_DIR := "data/outputs"; UPLOADS_DIR := "data/uploads";
     upstream := λ _ _, Ok {| status_code := 404; resp_json := None;
                              text := "not found"; content := [] |};
     b64decode := λ s, Ok (list_byte_of_string s);
     b64encode := string_of_list_byte;
     convert := λ _ _, Raise (RuntimeError "no exporter");
     makedirs_ok := λ _, false;
     write_ok := λ _, true;
     up_id := "20250101_000000_deadbeef" |}.

(** The remote side answers the status call of [id] successfully with
    the JSON object [j]. *)
Definition status_answers (E : env) (w : world) (key id : string) (j : json) : Prop :=
  MESHY_API_KEY E = Some key ∧ key ≠ "" ∧
  ∃ sresp, upstream E (trace w) (status_call E (auth key) id) = Ok sresp ∧
           ok sresp = true ∧ resp_json sresp = Some j ∧ dict_like j = true.

Definition no_url_env : env :=
  {| MESHY_API_KEY := Some "k";
     MESHY_API_URL := "https://api.meshy.ai/openapi/v1/image-to-3d";
     OUTPUTS_DIR := "data/outputs"; UPLOADS_DIR := "data/uploads";
     upstream := λ _ _, Ok {| status_code := 200;
                              resp_json := Some (JObj [("status", JStr "SUCCEEDED")]);
                              text := ""; content := [] |};
     b64decode := λ s, Ok (list_byte_of_string s);
     b64encode := string_of_list_byte;
     convert := λ data _, Ok data;
     makedirs_ok := λ _, true;
     write_ok := λ _, true;
     up_id := "20250101_000000_deadbeef" |}.

(** A computation that leaves the world as it is, and one that issues
    at most one call, of a given kind, and does nothing else. *)
Definition inert {A} (m : M A) : Prop := ∀ w, (run m w).2 = w.

Definition at_most_call {A} (P : net_call → Prop) (m : M A) : Prop :=
  ∀ w, (run m w).2 = w ∨ ∃ c, P c ∧ (run m w).2 = called w c.

Definition create_call (E : env) (h : list (string * string)) (img : image_input)
    (pbr rm tx : bool) (am : string) : net_call :=
  Post (MESHY_API_URL E) h (job_payload E img pbr rm tx am) 60.

(** The request reads as the options [pbr], [rm], [tx], the model value
    [am] and the image [img]. *)
Definition reads_as (E : env) (r : request)
    (pbr rm tx : bool) (am : json) (img : image_input) : Prop :=
  get_flag r "enable_pbr" true = Ok pbr ∧
  get_flag r "should_remesh" true = Ok rm ∧
  get_flag r "should_texture" true = Ok tx ∧
  parse_ai_model r = Ok am ∧
  parse_image E r = Ok (Some img) ∧
  (is_Some (image_bytes img) ∨ is_Some (image_data_url img)).

Definition url_request : request :=
  json_request (JObj [("image_url", JStr "http://x/y.png")]).

Definition url_image : image_input :=
  {| image_bytes := None; image_data_url := Some (JStr "http://x/y.png");
     original_filename := None |}.

Definition odd_env : env :=
  {| MESHY_API_KEY := Some "k";
     MESHY_API_URL := "https://api.meshy.ai/openapi/v1/image-to-3d";
     OUTPUTS_DIR := "data/outputs"; UPLOADS_DIR := "data/uploads";
     upstream := λ _ _, Ok {| status_code := 200;
                              resp_json := Some (JObj [("result", JInt 7)]);
                              text := ""; content := [] |};
     b64decode := λ _, Raise (ValueError "Incorrect padding");
     b64encode := string_of_list_byte;
     convert := λ data _, Ok data;
     makedirs_ok := λ _, true;
     write_ok := λ _, true;
     up_id := "20250101_000000_deadbeef" |}.

End ProxyMore.

(** * Properties *)

(** ** The downsampler *)

Section Downsample.
Import Py Viewer.

Example downsample_run :
  downsample (λ i, i + 1) [10; 20; 30; 40; 50]%Z (Some ["a"; "b"; "c"; "d"; "e"]) 3
  = Ok ([20; 30; 40]%Z, Some ["b"; "c"; "d"]).
Proof. vm_compute. reflexivity. Qed.

#[local] Instance transpose_inj i j : Inj (=) (=) (transpose i j).
Proof. intros a b. unfold transpose. repeat case_decide; congruence. Qed.

Lemma swap_length i j x : length (swap i j x) = length x.
Proof.
  unfold swap. destruct (x !! i), (x !! j); try done.
  by rewrite !length_insert.
Qed.

Lemma swap_lookup i j x k :
  i < length x → j < length x → swap i j x !! k = x !! transpose i j k.
Proof.
  intros Hi Hj. unfold swap.
  destruct (x !! i) as [a|] eqn:Ha; [|apply lookup_ge_None in Ha; lia].
  destruct (x !! j) as [b|] eqn:Hb; [|apply lookup_ge_None in Hb; lia].
  rewrite !list_lookup_insert, length_insert. unfold transpose.
  repeat case_decide; destruct_and?; simplify_eq; try done; exfalso; lia.
Qed.

Lemma swap_Permutation i j x : swap i j x ≡ₚ x.
Proof.
  destruct (decide (i < length x ∧ j < length x)) as [[Hi Hj]|Hout].
  - apply Permutation_inj. split; [apply swap_length|].
    exists (transpose i j). split; [apply _|]. intros k. by apply swap_lookup.
  - unfold swap.
    destruct (x !! i) as [a|] eqn:Ha; [|done].
    destruct (x !! j) as [b|] eqn:Hb; [|done].
    apply lookup_lt_Some in Ha, Hb. lia.
Qed.

Lemma shuffle_Permutation draw i x : shuffle draw i x ≡ₚ x.
Proof.
  revert x. induction i as [|i IH]; intros x; simpl; [done|].
  by rewrite IH, swap_Permutation.
Qed.

Lemma permutation_Permutation draw n : permutation draw n ≡ₚ seq 0 n.
Proof. apply shuffle_Permutation. Qed.

(** What the sampler promises: as many indices as asked for, all
    different, all in range. *)
Lemma choice_spec draw n size :
  (0 ≤ size ≤ Z.of_nat n)%Z →
  ∃ idx, choice draw n size = Ok idx ∧ length idx = Z.to_nat size ∧
         NoDup idx ∧ Forall (λ k, k < n) idx.
Proof.
  intros Hsize. unfold choice.
  destruct (Z.ltb_spec size 0); [lia|].
  destruct (Z.ltb_spec (Z.of_nat n) size); [lia|].
  pose proof (permutation_Permutation draw n) as Hp.
  eexists. split; [done|]. split; [|split].
  - rewrite length_take, Hp, length_seq. lia.
  - eapply sublist_NoDup; [|apply sublist_take]. rewrite Hp. apply NoDup_seq.
  - apply Forall_take. rewrite Hp. apply Forall_seq. intros; lia.
Qed.

Lemma choice_negative draw n size :
  (size < 0)%Z → ∃ e, choice draw n size = Raise e.
Proof. intros H. unfold choice. destruct (Z.ltb_spec size 0); [eauto|lia]. Qed.

(** Indexing by an in-range index array succeeds, row by row. *)
Lemma index_by_spec {A} (a : list A) idx :
  Forall (λ k, k < length a) idx →
  ∃ rows, index_by a idx = Ok rows ∧ length rows = length idx ∧
          ∀ i k, idx !! i = Some k → rows !! i = a !! k.
Proof.
  intros Hidx. unfold index_by.
  destruct (mapM (λ i, a !! i) idx) as [rows|] eqn:Hm.
  - apply mapM_Some in Hm. exists rows. split; [done|].
    split; [symmetry; by eapply Forall2_length|].
    intros i k Hik.
    destruct (Forall2_lookup_l _ _ _ _ _ Hm Hik) as (y & Hy & Hk).
    by rewrite Hy, Hk.
  - exfalso. assert (is_Some (mapM (λ i, a !! i) idx)) as [? ?]; [|congruence].
    apply mapM_is_Some. eapply Forall_impl; [done|].
    intros k Hk. by apply lookup_lt_is_Some.
Qed.

(** A negative target makes the sampler raise: the function does not
    return. *)
Lemma downsample_negative {P C} draw (pts : list P) (cols : option (list C)) max_points :
  (max_points < 0)%Z → ∃ e, downsample draw pts cols max_points = Raise e.
Proof.
  intros Hneg. unfold downsample.
  destruct (Z.ltb_spec max_points (Z.of_nat (length pts))); [|lia].
  destruct (choice_negative draw (length pts) max_points Hneg) as [e ->]. eauto.
Qed.

(** C1. For a cloud of M positions with optional parallel colours of
    length M and a target count N: when M > N, [downsample] returns
    exactly N positions (and N colours) picked through one index vector
    without duplicates, the i-th position and the i-th colour both
    coming from the i-th index; when M <= N it returns its input. *)
Theorem downsample_spec {P C} (draw : nat → nat)
    (pts : list P) (cols : option (list C)) (max_points : Z) :
  (∀ cs, cols = Some cs → length cs = length pts) →
  (0 ≤ max_points)%Z →
  ((max_points < Z.of_nat (length pts))%Z →
     ∃ idx pts' cols',
       downsample draw pts cols max_points = Ok (pts', cols') ∧
       length idx = Z.to_nat max_points ∧
       length pts' = Z.to_nat max_points ∧
       NoDup idx ∧
       (∀ i k, idx !! i = Some k → k < length pts ∧ pts' !! i = pts !! k) ∧
       match cols with
       | Some cs =>
           ∃ cs', cols' = Some cs' ∧ length cs' = Z.to_nat max_points ∧
                  ∀ i k, idx !! i = Some k → cs' !! i = cs !! k
       | None => cols' = None
       end) ∧
  ((Z.of_nat (length pts) ≤ max_points)%Z →
     downsample draw pts cols max_points = Ok (pts, cols)).
Proof.
  intros Hcols Hpos. split; intros HN; unfold downsample.
  - destruct (Z.ltb_spec max_points (Z.of_nat (length pts))); [|lia].
    destruct (choice_spec draw (length pts) max_points) as (idx & -> & Hlen & Hnd & Hrange);
      [lia|].
    destruct (index_by_spec pts idx Hrange) as (pts' & Hp & Hplen & Hprow).
    simpl. rewrite Hp. simpl.
    destruct cols as [cs|].
    + assert (Forall (λ k, k < length cs) idx) as Hrange'
        by (rewrite (Hcols cs eq_refl); done).
      destruct (index_by_spec cs idx Hrange') as (cs' & Hc & Hclen & Hcrow).
      rewrite Hc. simpl. exists idx, pts', (Some cs').
      repeat split; try done; try congruence.
      * eapply (proj1 (Forall_lookup _ _) Hrange); done.
      * by apply Hprow.
      * exists cs'. repeat split; congruence || done.
    + simpl. exists idx, pts', None.
      repeat split; try done; try congruence.
      * eapply (proj1 (Forall_lookup _ _) Hrange); done.
      * by apply Hprow.
  - destruct (Z.ltb_spec max_points (Z.of_nat (length pts))); [lia|done].
Qed.

Lemma downsample_spec_witness :
  ∃ (idx : list nat) pts' cols',
    downsample (λ i, i + 1) [10; 20; 30; 40; 50]%Z (Some ["a"; "b"; "c"; "d"; "e"]) 3
    = Ok (pts', cols') ∧
    length idx = 3 ∧ length pts' = 3 ∧ NoDup idx.
Proof.
  destruct (downsample_spec (λ i, i + 1) [10; 20; 30; 40; 50]%Z
              (Some ["a"; "b"; "c"; "d"; "e"]) 3) as [Hsub _].
  - intros cs [= <-]. reflexivity.
  - lia.
  - destruct Hsub as (idx & pts' & cols' & Hrun & Hidx & Hlen & Hnd & _).
    + simpl. lia.
    + exists idx, pts', cols'. repeat split; assumption.
Defined.

End Downsample.

(** ** Point inversion *)

Section Inversion.
Import Viewer.

Lemma SFopp_involutive (x : spec_float) : SFopp (SFopp x) = x.
Proof. destruct x; simpl; by rewrite ?negb_involutive. Qed.

Lemma neg3_involutive (p : vec3f) : neg3 (neg3 p) = p.
Proof. destruct p as [[x y] z]. simpl. by rewrite !SFopp_involutive. Qed.

Lemma negate_involutive (pts : list vec3f) : negate (negate pts) = pts.
Proof.
  unfold negate. rewrite <- list_fmap_compose.
  rewrite <- (list_fmap_id pts) at 2. apply list_fmap_ext.
  intros i p _. apply neg3_involutive.
Qed.

(** C9. Negating every position twice gives back the original positions,
    bit for bit and hence within any tolerance; the colours are the ones
    that went in, whether or not the inversion is requested. *)
Theorem invert_twice {C} (pts : list vec3f) (cols : option (list C)) :
  negate (negate pts) = pts ∧
  (let (pts1, cols1) := scene_points true pts cols in
   scene_points true pts1 cols1) = (pts, cols) ∧
  ∀ invert, (scene_points invert pts cols).2 = cols.
Proof.
  split; [apply negate_involutive|]. split; [|done].
  unfold scene_points. by rewrite negate_involutive.
Qed.

End Inversion.

(** ** Camera intrinsic *)

Section Intrinsic.
Import Viewer.
Local Open Scope R_scope.

Lemma half_fov_range (f : Z) :
  (0 < f < 180)%Z → 0 < radians (IZR f / 2) < PI / 2.
Proof.
  intros [Hlo Hhi]. apply IZR_lt in Hlo, Hhi. unfold radians.
  pose proof PI_RGT_0 as Hpi. split.
  - apply Rdiv_lt_0_compat; [|lra]. apply Rmult_lt_0_compat; lra.
  - apply (Rmult_lt_reg_r 180); [lra|]. field_simplify. nra.
Qed.



End Intrinsic.

(** ** Rotation lock *)

Section RotationLock.
Import Viewer.
Local Open Scope R_scope.

Lemma eps_pos : 0 < eps.
Proof. unfold eps. lra. Qed.

(** Case analysis on a matrix position, up to the 4x4 shape. *)
Ltac entries i j :=
  destruct i as [|[|[|[|i]]]]; destruct j as [|[|[|[|j]]]];
  cbn [Nat.eqb andb].

Lemma norm_unit x y z : x * x + y * y + z * z = 1 → norm (x, y, z) = 1.
Proof. intros H. unfold norm. rewrite H. apply sqrt_1. Qed.

Lemma norm_scaled x y z k : 0 <= k → x * x + y * y + z * z = k * k → norm (x, y, z) = k.
Proof. intros Hk H. unfold norm. rewrite H. by apply sqrt_square. Qed.

Lemma lock_height_level y e i j : e 1%nat 3%nat = y → lock_height y e i j = e i j.
Proof.
  intros <-. unfold lock_height, mset.
  destruct (Nat.eqb_spec i 1), (Nat.eqb_spec j 3); subst; reflexivity.
Qed.

Lemma lock_up_level e i j :
  col e 1 = (0, 1, 0) ∨ col e 1 = (0, -1, 0) → lock_up e i j = e i j.
Proof.
  unfold col. intros Hup.
  assert (∃ s, (s = 1 ∨ s = -1) ∧ e 0%nat 1%nat = 0 ∧ e 1%nat 1%nat = s ∧ e 2%nat 1%nat = 0)
    as (s & Hs & H0 & H1 & H2).
  { destruct Hup as [[= -> -> ->]|[= -> -> ->]]; eauto 10. }
  unfold lock_up, mset, col. cbn [Nat.eqb andb].
  rewrite H1.
  assert ((if Rlt_dec s 0 then -1 else 1) = s) as ->.
  { destruct (Rlt_dec s 0); destruct Hs; lra. }
  rewrite (norm_unit 0 s 0) by (destruct Hs; subst; lra).
  unfold vdiv, set_col, mset.
  entries i j; try reflexivity; try lra.
Qed.

Lemma lock_forward_entries e i j :
  e 1%nat 2%nat = 0 →
  e 0%nat 2%nat * e 0%nat 2%nat + e 2%nat 2%nat * e 2%nat 2%nat = 1 →
  lock_forward e i j =
    if (j =? 2)%nat && (i <? 3)%nat then e i j / (1 + eps) else e i j.
Proof.
  intros H1 Hn. unfold lock_forward, col, mset. cbn [Nat.eqb andb].
  rewrite (norm_unit (e 0%nat 2%nat) 0 (e 2%nat 2%nat)) by lra.
  unfold vdiv, set_col, mset.
  entries i j; cbn [Nat.ltb Nat.leb]; try reflexivity.
  rewrite H1. reflexivity.
Qed.

Lemma lock_right_entries e s a c k i j :
  col e 1 = (0, s, 0) → col e 2 = (a, 0, c) →
  s * s = 1 → 0 <= k → a * a + c * c = k * k →
  lock_right e i j =
    if (j =? 0)%nat && (i <? 3)%nat
    then match i with
         | O => s * c
         | 1%nat => 0
         | _ => - (s * a)
         end / (k + eps)
    else e i j.
Proof.
  intros Hup Hfw Hs Hk Hn. unfold lock_right. rewrite Hup, Hfw.
  unfold cross.
  rewrite (norm_scaled _ _ _ k) by (try done; nra).
  unfold vdiv, set_col, mset.
  entries i j; cbn [Nat.ltb Nat.leb]; try reflexivity; f_equal; ring.
Qed.




(** On a level rigid frame the correction rescales the right and the
    forward column and nothing else. *)
Lemma lock_level_entries (initial_y : R) (e : mat) i j :
  rigid e → level initial_y e →
  lock_vertical_rotation initial_y e i j =
    let k := / (1 + eps) in
    if (i <? 3)%nat && (j =? 0)%nat then e i j * (k / (k + eps))
    else if (i <? 3)%nat && (j =? 2)%nat then e i j * k
    else e i j.
Proof.
  intros (_ & _ & H22 & _ & _ & _ & Hx) (Hup & Hf1 & Hy).
  cbv zeta. set (k := / (1 + eps)).
  pose proof eps_pos as He.
  assert (∃ s, (s = 1 ∨ s = -1) ∧ col e 1 = (0, s, 0)) as (s & Hs & Hcol1).
  { destruct Hup as [-> | ->]; eauto. }
  set (a := e 0%nat 2%nat). set (c := e 2%nat 2%nat).
  assert (col e 2 = (a, 0, c)) as Hcol2 by (unfold col; by rewrite Hf1).
  assert (a * a + c * c = 1) as Hac.
  { rewrite Hcol2 in H22. unfold dot in H22. lra. }
  assert (col e 0 = (s * c, 0, - (s * a))) as Hcol0.
  { rewrite Hx, Hcol1, Hcol2. unfold cross. f_equal; [f_equal|]; ring. }
  assert (s * s = 1) as Hss by (destruct Hs; subst; lra).
  set (e1 := lock_height initial_y e).
  assert (∀ i j, e1 i j = e i j) as H1 by (intros; by apply lock_height_level).
  set (e2 := lock_up e1).
  assert (∀ i j, e2 i j = e i j) as H2.
  { intros i' j'. unfold e2. rewrite lock_up_level, H1; [done|].
    unfold col. rewrite !H1. exact Hup. }
  set (e3 := lock_forward e2).
  assert (∀ i j, e3 i j = if (j =? 2)%nat && (i <? 3)%nat then e i j / (1 + eps) else e i j)
    as H3.
  { intros i' j'. unfold e3. rewrite lock_forward_entries, !H2; [done|done|].
    rewrite !H2. exact Hac. }
  assert (0 < k) as Hk by (apply Rinv_0_lt_compat; lra).
  unfold lock_vertical_rotation. fold e1 e2 e3.
  rewrite (lock_right_entries e3 s (a * k) (c * k) k).
  - rewrite H3. injection Hcol0 as H00 H10 H20.
    entries i j; cbn [Nat.eqb Nat.ltb Nat.leb andb]; try reflexivity.
    + rewrite H00. field. lra.
    + rewrite H10. field. lra.
    + rewrite H20. fold a. field. lra.
  - unfold col. rewrite !H3. cbn [Nat.eqb andb]. exact Hcol1.
  - unfold col. rewrite !H3. cbn [Nat.eqb andb Nat.ltb Nat.leb].
    fold a c. rewrite Hf1.
    replace (0 / (1 + eps)) with 0 by (field; lra). reflexivity.
  - exact Hss.
  - lra.
  - nra.
Qed.



Lemma start_pose_rigid a : rigid (initial_extrinsic a).
Proof.
  unfold rigid, initial_extrinsic, col, dot, cross, mset, eye.
  cbn [Nat.eqb andb]. repeat split; try lra. f_equal; [f_equal|]; lra.
Qed.

Lemma start_pose_level a : level (- 0) (initial_extrinsic a).
Proof.
  unfold level, initial_extrinsic, col, mset, eye.
  cbn [Nat.eqb andb]. repeat split; auto.
Qed.

(** The correction is not the identity: on the start pose the forward
    column shrinks by the factor 1 / (1 + 1e-10). *)
Lemma lock_start_pose_forward a :
  lock_vertical_rotation (- 0) (initial_extrinsic a) 2%nat 2%nat = / (1 + eps).
Proof.
  rewrite (lock_level_entries _ _ _ _ (start_pose_rigid a) (start_pose_level a)).
  unfold initial_extrinsic, mset, eye. cbn [Nat.eqb Nat.ltb Nat.leb andb]. lra.
Qed.


End RotationLock.

(** ** The proxy *)

Section ProxyFacts.
Import Py Proxy.

(** *** Running the monad *)

Lemma run_lift_bind {A B} (r : res A) (k : A → M B) w :
  run (lift r ≫= k) w =
  match r with
  | Ok a => run (k a) w
  | Raise e => (Raise e, w)
  end.
Proof. by destruct r. Qed.

Lemma run_bind {A B} (m : M A) (k : A → M B) w :
  run (m ≫= k) w =
  match run m w with
  | (Ok a, w') => run (k a) w'
  | (Raise e, w') => (Raise e, w')
  end.
Proof. reflexivity. Qed.

Lemma run_lift_ok {A B} (a : A) (k : A → M B) w :
  run (lift (Ok a) ≫= k) w = run (k a) w.
Proof. reflexivity. Qed.

Lemma run_http_bind {B} E c (k : response → M B) w :
  run (http E c ≫= k) w =
  match upstream E (trace w) c with
  | Ok a => run (k a) (called w c)
  | Raise e => (Raise e, called w c)
  end.
Proof. reflexivity. Qed.

(** The fields a handler can read off a body. *)
Lemma or_empty_dict body : dict_like body = true → or_empty body = JObj (fields_of body).
Proof. unfold dict_like, fields_of. by destruct (or_empty body). Qed.

Lemma field_dict body k :
  dict_like body = true → field body k = default JNull (assoc k (fields_of body)).
Proof.
  unfold dict_like, fields_of, field, or_empty.
  destruct body; simpl; try done.
  - by destruct b.
  - by destruct (negb (z =? 0)%Z).
  - by destruct f.
  - by destruct (negb (s =? "")).
  - by destruct (negb (bool_decide (items = []))).
  - intros _. destruct (negb (bool_decide (fields = []))) eqn:Hf; [done|].
    apply negb_false_iff, bool_decide_eq_true in Hf. by subst.
Qed.

Lemma get_dict_like body k dflt :
  dict_like body = true →
  get (or_empty body) k dflt = Ok (default dflt (assoc k (fields_of body))).
Proof. intros H. by rewrite or_empty_dict. Qed.

Lemma get_dict_like_null body k :
  dict_like body = true → get (or_empty body) k JNull = Ok (field body k).
Proof. intros H. by rewrite get_dict_like, field_dict. Qed.

Lemma get_flag_form r name dflt :
  is_json r = false → ∃ b, get_flag r name dflt = Ok b.
Proof. intros H. unfold get_flag. rewrite H. eauto. Qed.

Lemma parse_ai_model_form r :
  is_json r = false → ∃ v, parse_ai_model r = Ok v.
Proof. intros H. unfold parse_ai_model. rewrite H. eauto. Qed.

Lemma get_flag_json r body name dflt :
  is_json r = true → json_body r = Some body → dict_like body = true →
  ∃ b, get_flag r name dflt = Ok b.
Proof.
  intros Hj Hb Hd. unfold get_flag, request_json. rewrite Hj, Hb. simpl.
  rewrite get_dict_like by done. simpl. eauto.
Qed.

Lemma parse_ai_model_json r body :
  is_json r = true → json_body r = Some body → dict_like body = true →
  ∃ v, parse_ai_model r = Ok v.
Proof.
  intros Hj Hb Hd. unfold parse_ai_model, request_json. rewrite Hj, Hb. simpl.
  rewrite get_dict_like by done. eauto.
Qed.

(** The handler once the request has been read. *)
Lemma process_image_read E r w pbr rm tx am parsed :
  get_flag r "enable_pbr" true = Ok pbr →
  get_flag r "should_remesh" true = Ok rm →
  get_flag r "should_texture" true = Ok tx →
  parse_ai_model r = Ok am →
  parse_image E r = Ok parsed →
  process_image E r w =
  handle
    match parsed with
    | None => mret (json_response 415 [("error", JStr "Unsupported content type")])
    | Some img =>
        match image_bytes img, image_data_url img with
        | None, None => mret (json_response 400 [("error", JStr no_image_msg)])
        | _, _ =>
            persist_upload E img ≫= λ _,
            create_job E img pbr rm tx (validate_ai_model am)
        end
    end w.
Proof.
  intros H1 H2 H3 H4 H5. unfold process_image, handle.
  rewrite H1, H2, H3, H4, H5, !run_lift_bind. reflexivity.
Qed.

Lemma parse_image_multipart E r :
  is_multipart r = true →
  parse_image E r =
    Ok (Some (match assoc "image" (files r) with
              | Some file =>
                  if has_file r
                  then {| image_bytes := Some (read file); image_data_url := None;
                          original_filename := filename file |}
                  else no_image
              | None => no_image
              end)).
Proof.
  intros Hm. unfold parse_image, has_file. rewrite Hm.
  destruct (assoc "image" (files r)) as [file|]; [|done].
  destruct (filename file) as [name|]; [|done].
  by destruct (name =? "").
Qed.

Lemma parse_image_json E r body :
  is_multipart r = false → is_json r = true →
  json_body r = Some body → dict_like body = true →
  parse_image E r =
    if truthy (field body "image_base64") then
      decode_b64 E (field body "image_base64") ≫= λ decoded,
      Ok (Some {| image_bytes := Some decoded; image_data_url := None;
                  original_filename := None |})
    else if truthy (field body "image_url") then
      Ok (Some {| image_bytes := None;
                  image_data_url := Some (field body "image_url");
                  original_filename := None |})
    else Ok (Some no_image).
Proof.
  intros Hm Hj Hb Hd. unfold parse_image, get_json_silent.
  rewrite Hm, Hj, Hb. simpl.
  rewrite !get_dict_like_null by done. reflexivity.
Qed.

(** C3 (amended). A request that is neither multipart nor JSON is
    answered 415 with an error body; a multipart request without a named
    file under [image], and a JSON request whose body is an object (or
    an empty value) without a non-empty [image_base64] or [image_url],
    are answered 400 with the explanatory error body.  Nothing is
    written and no call is made. *)
Theorem process_image_rejects (E : env) (r : request) (w : world) :
  (is_multipart r = false → is_json r = false →
   process_image E r w =
     (json_response 415 [("error", JStr "Unsupported content type")], w)) ∧
  (is_multipart r = true → is_json r = false → has_file r = false →
   process_image E r w = (json_response 400 [("error", JStr no_image_msg)], w)) ∧
  (is_multipart r = false → is_json r = true →
   (∃ body, json_body r = Some body ∧ dict_like body = true) →
   has_json_image r = false →
   process_image E r w = (json_response 400 [("error", JStr no_image_msg)], w)).
Proof.
  split; [|split].
  - intros Hm Hj.
    destruct (get_flag_form r "enable_pbr" true Hj) as [b1 H1].
    destruct (get_flag_form r "should_remesh" true Hj) as [b2 H2].
    destruct (get_flag_form r "should_texture" true Hj) as [b3 H3].
    destruct (parse_ai_model_form r Hj) as [am H4].
    assert (parse_image E r = Ok None) as H5
      by (unfold parse_image; by rewrite Hm, Hj).
    by rewrite (process_image_read _ _ _ _ _ _ _ _ H1 H2 H3 H4 H5).
  - intros Hm Hj Hf.
    destruct (get_flag_form r "enable_pbr" true Hj) as [b1 H1].
    destruct (get_flag_form r "should_remesh" true Hj) as [b2 H2].
    destruct (get_flag_form r "should_texture" true Hj) as [b3 H3].
    destruct (parse_ai_model_form r Hj) as [am H4].
    pose proof (parse_image_multipart E r Hm) as H5. rewrite Hf in H5.
    rewrite (process_image_read _ _ _ _ _ _ _ _ H1 H2 H3 H4 H5).
    by destruct (assoc "image" (files r)).
  - intros Hm Hj (body & Hb & Hd) Hi.
    destruct (get_flag_json r body "enable_pbr" true Hj Hb Hd) as [b1 H1].
    destruct (get_flag_json r body "should_remesh" true Hj Hb Hd) as [b2 H2].
    destruct (get_flag_json r body "should_texture" true Hj Hb Hd) as [b3 H3].
    destruct (parse_ai_model_json r body Hj Hb Hd) as [am H4].
    unfold has_json_image in Hi. rewrite Hb in Hi.
    apply orb_false_iff in Hi as [Hi1 Hi2].
    pose proof (parse_image_json E r body Hm Hj Hb Hd) as H5.
    rewrite Hi1, Hi2 in H5.
    by rewrite (process_image_read _ _ _ _ _ _ _ _ H1 H2 H3 H4 H5).
Qed.

(** *** Without a credential *)

Lemma quiet_lift {A} (r : res A) : quiet (lift r).
Proof. by intros w. Qed.

Lemma quiet_ret {A} (a : A) : quiet (mret a).
Proof. by intros w. Qed.

Lemma quiet_bind {A B} (m : M A) (k : A → M B) :
  quiet m → (∀ a, quiet (k a)) → quiet (m ≫= k).
Proof.
  intros Hm Hk w. rewrite run_bind.
  specialize (Hm w). destruct (run m w) as [[a|e] w']; simpl in *.
  - by rewrite Hk.
  - done.
Qed.

Lemma quiet_handle (m : M http_response) w :
  quiet m → trace (handle m w).2 = trace w.
Proof.
  intros Hm. unfold handle. specialize (Hm w).
  destruct (run m w) as [[resp|[]] w']; done.
Qed.

Lemma quiet_persist_upload E img : quiet (persist_upload E img).
Proof.
  intros w. unfold persist_upload, write_upload.
  destruct (image_bytes img); simpl; [|done]. by destruct (write_ok E _).
Qed.

Lemma headers_no_key E :
  MESHY_API_KEY E = None ∨ MESHY_API_KEY E = Some "" →
  _meshy_headers E = Raise (RuntimeError no_key_msg).
Proof. unfold _meshy_headers. by intros [-> | ->]. Qed.

Lemma create_job_no_key E img pbr rm tx am w e :
  _meshy_headers E = Raise e →
  run (create_job E img pbr rm tx am) w = (Raise e, w).
Proof. intros H. unfold create_job. by rewrite H. Qed.

Lemma persist_upload_ok E img w :
  ∃ w', run (persist_upload E img) w = (Ok (), w') ∧
        trace w' = trace w ∧ metas w' = metas w.
Proof.
  unfold persist_upload, write_upload.
  destruct (image_bytes img); simpl; [|by eauto].
  destruct (write_ok E _); eauto.
Qed.

Lemma process_image_quiet E r w :
  MESHY_API_KEY E = None ∨ MESHY_API_KEY E = Some "" →
  trace (process_image E r w).2 = trace w.
Proof.
  intros Hkey%headers_no_key. apply quiet_handle.
  apply quiet_bind; [apply quiet_lift|intros pbr].
  apply quiet_bind; [apply quiet_lift|intros rm].
  apply quiet_bind; [apply quiet_lift|intros tx].
  apply quiet_bind; [apply quiet_lift|intros am].
  apply quiet_bind; [apply quiet_lift|intros [img|]]; [|apply quiet_ret].
  assert (quiet (persist_upload E img ≫= λ _,
                 create_job E img pbr rm tx (validate_ai_model am))) as Hq.
  { apply quiet_bind; [apply quiet_persist_upload|]. intros _ w'.
    by rewrite (create_job_no_key _ _ _ _ _ _ _ _ Hkey). }
  destruct (image_bytes img), (image_data_url img); try apply Hq. apply quiet_ret.
Qed.

(** C7. Without an API key (unset or empty): the status handler, the
    result handler on a supported format, and the creation handler on a
    request that carries an image all answer 500 with the configuration
    message, and neither the creation handler nor the result handler
    issues any call, whatever the request. *)
Theorem missing_credential (E : env) :
  MESHY_API_KEY E = None ∨ MESHY_API_KEY E = Some "" →
  (∀ id w, get_status E id w = (json_response 500 [("error", JStr no_key_msg)], w)) ∧
  (∀ r id w, str_in (fmt_of r) ["glb"; "obj"; "ply"] = true →
     get_result E r id w = (json_response 500 [("error", JStr no_key_msg)], w)) ∧
  (∀ r w pbr rm tx am img,
     get_flag r "enable_pbr" true = Ok pbr →
     get_flag r "should_remesh" true = Ok rm →
     get_flag r "should_texture" true = Ok tx →
     parse_ai_model r = Ok am →
     parse_image E r = Ok (Some img) →
     is_Some (image_bytes img) ∨ is_Some (image_data_url img) →
     (process_image E r w).1 = json_response 500 [("error", JStr no_key_msg)]) ∧
  (∀ r w, trace (process_image E r w).2 = trace w) ∧
  (∀ r id w, trace (get_result E r id w).2 = trace w).
Proof.
  intros Hkey. pose proof (headers_no_key E Hkey) as Hh.
  assert (∀ r id w, str_in (fmt_of r) ["glb"; "obj"; "ply"] = true →
            get_result E r id w = (json_response 500 [("error", JStr no_key_msg)], w)) as Hres.
  { intros r id w Hfmt. unfold get_result. rewrite Hfmt. simpl negb. cbv iota.
    unfold handle. by rewrite Hh. }
  split; [|split; [done|split; [|split]]].
  - intros id w. unfold get_status, handle. by rewrite Hh.
  - intros r w pbr rm tx am img H1 H2 H3 H4 H5 Hsrc.
    rewrite (process_image_read _ _ _ _ _ _ _ _ H1 H2 H3 H4 H5).
    assert (handle (persist_upload E img ≫= λ _,
                    create_job E img pbr rm tx (validate_ai_model am)) w
            = (json_response 500 [("error", JStr no_key_msg)],
               (run (persist_upload E img) w).2)) as Hrun.
    { unfold handle. rewrite run_bind.
      destruct (persist_upload_ok E img w) as (w' & -> & _).
      by rewrite (create_job_no_key _ _ _ _ _ _ _ _ Hh). }
    destruct (image_bytes img) as [data|], (image_data_url img) as [u|];
      try (by rewrite Hrun).
    destruct Hsrc as [[? [=]]|[? [=]]].
  - intros r w. by apply process_image_quiet.
  - intros r id w.
    destruct (str_in (fmt_of r) ["glb"; "obj"; "ply"]) eqn:Hfmt.
    + by rewrite (Hres r id w Hfmt).
    + unfold get_result. by rewrite Hfmt.
Qed.

(** *** Format check and readiness *)

(** C4 (amended). When the [format] parameter, lower-cased and with a
    missing or empty value read as [glb], is not one of glb, obj, ply,
    the answer is 400 with the list of allowed formats, and the world is
    left as it was: no call to the remote side. *)
Theorem get_result_unsupported_format (E : env) (r : request) (id : string) (w : world) :
  str_in (fmt_of r) ["glb"; "obj"; "ply"] = false →
  get_result E r id w =
    (json_response 400
       [("error", JStr "Unsupported format");
        ("allowed", JArr [JStr "glb"; JStr "obj"; JStr "ply"])], w).
Proof. intros Hfmt. unfold get_result. by rewrite Hfmt. Qed.

(** C5. With a supported format, when the status call is answered
    successfully with a status other than [SUCCEEDED], the answer is 409
    with an error message and that status, and the status call is the
    only call made: no model is fetched. *)
Theorem get_result_not_ready (E : env) (r : request) (id : string) (w : world)
    (h : list (string * string)) (sresp : response) (j : json) :
  str_in (fmt_of r) ["glb"; "obj"; "ply"] = true →
  _meshy_headers E = Ok h →
  upstream E (trace w) (status_call E h id) = Ok sresp →
  ok sresp = true →
  resp_json sresp = Some j →
  dict_like j = true →
  is_str "SUCCEEDED" (field j "status") = false →
  get_result E r id w =
    (json_response 409
       [("error", JStr "Job not completed"); ("status", field j "status")],
     called w (status_call E h id)).
Proof.
  intros Hfmt Hh Hup Hok Hj Hd Hst. unfold get_result. rewrite Hfmt.
  change (negb true) with false. cbv iota beta. unfold handle.
  rewrite Hh, run_lift_ok, run_http_bind.
  fold (status_call E h id). rewrite Hup, Hok.
  change (negb true) with false. cbv iota.
  unfold json_of. rewrite Hj, run_lift_ok. cbv beta.
  rewrite !get_dict_like_null by done. rewrite run_lift_ok. cbv beta.
  rewrite Hst. reflexivity.
Qed.

(** *** Job creation *)

Lemma handle_trace m w : trace (handle m w).2 = trace (run m w).2.
Proof. unfold handle. by destruct (run m w) as [[?|[]] ?]. Qed.

Lemma quiet_save_meta E task_id meta : quiet (_save_meta E task_id meta).
Proof.
  intros w. unfold _save_meta, write_meta.
  destruct task_id; try done.
  destruct (makedirs_ok E _); [|done]. simpl. by destruct (write_ok E _).
Qed.

(** With a credential the creation issues exactly one call, whatever
    the remote side answers. *)
Lemma create_job_trace E img pbr rm tx am w h :
  _meshy_headers E = Ok h →
  trace (run (create_job E img pbr rm tx am) w).2 =
    (trace w ++ [Post (MESHY_API_URL E) h (job_payload E img pbr rm tx am) 60])%list.
Proof.
  intros Hh. unfold create_job. rewrite Hh, run_lift_ok, run_http_bind.
  destruct (upstream E _ _) as [resp|e]; [|done].
  set (c := Post _ _ _ _). change (trace w ++ [c])%list with (trace (called w c)).
  generalize (called w c). change (quiet
    (if negb (ok resp)
     then mret (json_response (status_code resp)
                  [("error", JStr "Meshy create failed");
                   ("detail", default (JObj [("text", JStr (text resp))]) (resp_json resp))])
     else
       lift (json_of resp) ≫= λ j,
       lift (get (or_empty j) "result" JNull) ≫= λ task_id,
       if negb (truthy task_id)
       then mret (json_response 502 [("error", JStr "Invalid Meshy response"); ("detail", j)])
       else _save_meta E task_id (job_meta img pbr rm tx am) ≫= λ _,
            mret (json_response 202 [("task_id", task_id)]))).
  destruct (negb (ok resp)); [apply quiet_ret|].
  apply quiet_bind; [apply quiet_lift|intros j].
  apply quiet_bind; [apply quiet_lift|intros task_id].
  destruct (negb (truthy task_id)); [apply quiet_ret|].
  apply quiet_bind; [apply quiet_save_meta|intros _; apply quiet_ret].
Qed.

(** A creation the remote side accepts. *)
Lemma create_job_accepted E img pbr rm tx am w h resp j id :
  _meshy_headers E = Ok h →
  upstream E (trace w) (Post (MESHY_API_URL E) h (job_payload E img pbr rm tx am) 60)
    = Ok resp →
  ok resp = true → resp_json resp = Some j → dict_like j = true →
  field j "result" = JStr id → id ≠ "" →
  makedirs_ok E (path_join (OUTPUTS_DIR E) id) = true →
  ∃ w', run (create_job E img pbr rm tx am) w
          = (Ok (json_response 202 [("task_id", JStr id)]), w') ∧
        trace w' =
          (trace w ++ [Post (MESHY_API_URL E) h (job_payload E img pbr rm tx am) 60])%list ∧
        (write_ok E (meta_path E id) = true →
         metas w' = (metas w ++ [(meta_path E id, job_meta img pbr rm tx am)])%list).
Proof.
  intros Hh Hup Hok Hj Hd Hid Hne Hmk. unfold create_job.
  rewrite Hh, run_lift_ok, run_http_bind, Hup, Hok.
  change (negb true) with false. cbv iota.
  unfold json_of. rewrite Hj, run_lift_ok. cbv beta.
  rewrite get_dict_like_null, Hid, run_lift_ok by done. cbv beta.
  assert (truthy (JStr id) = true) as ->.
  { simpl. destruct (String.eqb_spec id ""); done. }
  change (negb true) with false. cbv iota.
  unfold _save_meta. rewrite Hmk. fold (meta_path E id).
  unfold write_meta.
  destruct (write_ok E (meta_path E id)); eexists; (split; [reflexivity|]); simpl;
    split; done.
Qed.

Lemma validate_ai_model_other v :
  v ≠ JStr "latest" → v ≠ JStr "meshy-5" → validate_ai_model v = "latest".
Proof.
  intros H1 H2. destruct v; try done. simpl.
  destruct (String.eqb_spec s "latest"); [congruence|].
  destruct (String.eqb_spec s "meshy-5"); [congruence|done].
Qed.

(** The handler once the request has been read and carries an image. *)
Lemma process_image_create E r w pbr rm tx am img :
  get_flag r "enable_pbr" true = Ok pbr →
  get_flag r "should_remesh" true = Ok rm →
  get_flag r "should_texture" true = Ok tx →
  parse_ai_model r = Ok am →
  parse_image E r = Ok (Some img) →
  is_Some (image_bytes img) ∨ is_Some (image_data_url img) →
  ∃ w0, trace w0 = trace w ∧ metas w0 = metas w ∧
        process_image E r w =
          handle (create_job E img pbr rm tx (validate_ai_model am)) w0.
Proof.
  intros H1 H2 H3 H4 H5 Hsrc.
  rewrite (process_image_read _ _ _ _ _ _ _ _ H1 H2 H3 H4 H5).
  assert (∃ w0, trace w0 = trace w ∧ metas w0 = metas w ∧
            handle (persist_upload E img ≫= λ _,
                    create_job E img pbr rm tx (validate_ai_model am)) w
            = handle (create_job E img pbr rm tx (validate_ai_model am)) w0) as Hrun.
  { destruct (persist_upload_ok E img w) as (w0 & Hrun & Ht & Hm).
    exists w0. split; [done|split; [done|]].
    unfold handle. by rewrite run_bind, Hrun. }
  destruct (image_bytes img) as [data|], (image_data_url img) as [u|]; try exact Hrun.
  destruct Hsrc as [[? [=]]|[? [=]]].
Qed.

(** C6. [ai_model] is read from the form or the JSON body with default
    ["latest"]; [latest] and [meshy-5] are kept and every other value
    becomes ["latest"]; the value so obtained is the one in the payload
    sent to the remote side and in the stored metadata, and a request
    that is otherwise valid and accepted by the remote side is answered
    202 with the task id. *)
Theorem ai_model_normalized (E : env) (r : request) (w : world) :
  (is_json r = false →
   parse_ai_model r = Ok (JStr (default "latest" (assoc "ai_model" (form r))))) ∧
  (∀ body, is_json r = true → json_body r = Some body → dict_like body = true →
   parse_ai_model r = Ok (default (JStr "latest") (assoc "ai_model" (fields_of body)))) ∧
  validate_ai_model (JStr "latest") = "latest" ∧
  validate_ai_model (JStr "meshy-5") = "meshy-5" ∧
  (∀ v, v ≠ JStr "latest" → v ≠ JStr "meshy-5" → validate_ai_model v = "latest") ∧
  (∀ pbr rm tx am img h resp j id,
     get_flag r "enable_pbr" true = Ok pbr →
     get_flag r "should_remesh" true = Ok rm →
     get_flag r "should_texture" true = Ok tx →
     parse_ai_model r = Ok am →
     parse_image E r = Ok (Some img) →
     is_Some (image_bytes img) ∨ is_Some (image_data_url img) →
     _meshy_headers E = Ok h →
     let ai_model := validate_ai_model am in
     let payload :=
       JObj [("image_url", data_url E img); ("enable_pbr", JBool pbr);
             ("should_remesh", JBool rm); ("should_texture", JBool tx);
             ("ai_model", JStr ai_model)] in
     let meta :=
       JObj [("original_filename",
              match original_filename img with Some n => JStr n | None => JNull end);
             ("options",
              JObj [("enable_pbr", JBool pbr); ("should_remesh", JBool rm);
                    ("should_texture", JBool tx); ("ai_model", JStr ai_model)])] in
     upstream E (trace w) (Post (MESHY_API_URL E) h payload 60) = Ok resp →
     ok resp = true → resp_json resp = Some j → dict_like j = true →
     field j "result" = JStr id → id ≠ "" →
     makedirs_ok E (path_join (OUTPUTS_DIR E) id) = true →
     ∃ w', process_image E r w = (json_response 202 [("task_id", JStr id)], w') ∧
           trace w' = (trace w ++ [Post (MESHY_API_URL E) h payload 60])%list ∧
           (write_ok E (meta_path E id) = true →
            metas w' = (metas w ++ [(meta_path E id, meta)])%list)).
Proof.
  split; [|split; [|split; [done|split; [done|split]]]].
  - intros Hj. unfold parse_ai_model. by rewrite Hj.
  - intros body Hj Hb Hd. unfold parse_ai_model, request_json.
    rewrite Hj, Hb. simpl. by apply get_dict_like.
  - apply validate_ai_model_other.
  - intros pbr rm tx am img h resp j id H1 H2 H3 H4 H5 Hsrc Hh ai_model payload meta
      Hup Hok Hj Hd Hid Hne Hmk.
    destruct (process_image_create E r w pbr rm tx am img H1 H2 H3 H4 H5 Hsrc)
      as (w0 & Ht & Hm & ->).
    rewrite <- Ht in Hup.
    destruct (create_job_accepted E img pbr rm tx ai_model w0 h resp j id
                Hh Hup Hok Hj Hd Hid Hne Hmk) as (w' & Hrun & Htr & Hme).
    exists w'. unfold handle. fold ai_model. rewrite Hrun, Htr, Ht.
    split; [done|split; [done|]]. intros Hw. by rewrite (Hme Hw), Hm.
Qed.

Lemma after_comma_app pre rest :
  after_comma pre = None → after_comma (pre ++ "," ++ rest) = Some rest.
Proof.
  induction pre as [|c pre IH]; simpl; [done|].
  destruct (Ascii.eqb c ","); [done|apply IH].
Qed.

(** C10. In a JSON request whose [image_base64] is a non-empty string
    that decodes, the image is the decoded bytes whatever [image_url]
    holds; with a credential the one call made carries the data URI
    [data:image/png;base64,] followed by the re-encoded bytes; and when
    the string has a comma, what is decoded is what follows the first
    one. *)
Theorem base64_takes_precedence (E : env) (r : request) (w : world)
    (body : json) (s : string) (data : bytes) :
  is_multipart r = false → is_json r = true →
  json_body r = Some body → dict_like body = true →
  field body "image_base64" = JStr s → s ≠ "" →
  b64decode E (default s (after_comma s)) = Ok data →
  parse_image E r =
    Ok (Some {| image_bytes := Some data; image_data_url := None;
                original_filename := None |}) ∧
  (∀ h, _meshy_headers E = Ok h →
     ∃ pbr rm tx ai_model,
       trace (process_image E r w).2 =
         (trace w ++
          [Post (MESHY_API_URL E) h
             (JObj [("image_url", JStr ("data:image/png;base64," ++ b64encode E data));
                    ("enable_pbr", JBool pbr); ("should_remesh", JBool rm);
                    ("should_texture", JBool tx); ("ai_model", JStr ai_model)])
             60])%list) ∧
  (∀ pre rest, s = pre ++ "," ++ rest → after_comma pre = None →
     b64decode E rest = Ok data).
Proof.
  intros Hm Hj Hb Hd Hs Hne Hdec.
  assert (parse_image E r =
            Ok (Some {| image_bytes := Some data; image_data_url := None;
                        original_filename := None |})) as Hparse.
  { rewrite (parse_image_json E r body) by done. rewrite Hs.
    assert (truthy (JStr s) = true) as -> by (simpl; by destruct (String.eqb_spec s "")).
    simpl. by rewrite Hdec. }
  split; [done|split].
  - intros h Hh.
    destruct (get_flag_json r body "enable_pbr" true Hj Hb Hd) as [pbr H1].
    destruct (get_flag_json r body "should_remesh" true Hj Hb Hd) as [rm H2].
    destruct (get_flag_json r body "should_texture" true Hj Hb Hd) as [tx H3].
    destruct (parse_ai_model_json r body Hj Hb Hd) as [am H4].
    destruct (process_image_create E r w pbr rm tx am _ H1 H2 H3 H4 Hparse)
      as (w0 & Ht & _ & ->); [left; simpl; eauto|].
    exists pbr, rm, tx, (validate_ai_model am).
    rewrite handle_trace, (create_job_trace _ _ _ _ _ _ _ h), Ht by done.
    reflexivity.
  - intros pre rest -> Hpre. by rewrite after_comma_app in Hdec.
Qed.

(** C3 as stated fails: a JSON request whose body is the array [[1]]
    carries no image source and is answered 500, not 400. *)
Lemma process_image_no_source_500 :
  let r := json_request (JArr [JInt 1]) in
  is_multipart r = false ∧ is_json r = true ∧
  has_file r = false ∧ has_json_image r = false ∧
  process_image (sample_env (Some "k")) r empty_world =
    (json_response 500
       [("error", JStr "Internal server error");
        ("detail", JStr "'list' object has no attribute 'get'")],
     empty_world) ∧
  code (process_image (sample_env (Some "k")) r empty_world).1 ≠ 400.
Proof. repeat split. vm_compute. discriminate. Qed.

Lemma process_image_rejects_witness :
  process_image (sample_env None) (query_request []) empty_world =
    (json_response 415 [("error", JStr "Unsupported content type")], empty_world) ∧
  process_image (sample_env None) (multipart_request []) empty_world =
    (json_response 400 [("error", JStr no_image_msg)], empty_world) ∧
  process_image (sample_env None) (json_request (JObj [("enable_pbr", JBool false)]))
    empty_world =
    (json_response 400 [("error", JStr no_image_msg)], empty_world).
Proof.
  split; [|split].
  - apply (proj1 (process_image_rejects _ _ _)); reflexivity.
  - apply (proj1 (proj2 (process_image_rejects _ _ _))); reflexivity.
  - apply (proj2 (proj2 (process_image_rejects _ _ _))); try reflexivity.
    eexists. split; reflexivity.
Defined.

(** C4 as stated fails: [format=PLY] is none of the strings glb, obj,
    ply, yet the handler accepts it and asks the remote side for the
    status. *)
Lemma get_result_upper_case_format :
  let r := query_request [("format", "PLY")] in
  assoc "format" (args r) = Some "PLY" ∧
  str_in "PLY" ["glb"; "obj"; "ply"] = false ∧
  get_result (sample_env (Some "k")) r "t" empty_world =
    (json_response 409 [("error", JStr "Job not completed"); ("status", JStr "PENDING")],
     called empty_world
       (status_call (sample_env (Some "k")) [("Authorization", "Bearer k")] "t")) ∧
  code (get_result (sample_env (Some "k")) r "t" empty_world).1 ≠ 400 ∧
  trace (get_result (sample_env (Some "k")) r "t" empty_world).2 ≠ [].
Proof. repeat split; vm_compute; discriminate. Qed.

Lemma get_result_unsupported_format_witness :
  get_result (sample_env (Some "k")) (query_request [("format", "xyz")]) "t" empty_world =
    (json_response 400
       [("error", JStr "Unsupported format");
        ("allowed", JArr [JStr "glb"; JStr "obj"; JStr "ply"])], empty_world).
Proof. apply get_result_unsupported_format. reflexivity. Defined.

Lemma get_result_not_ready_witness :
  get_result (sample_env (Some "k")) (query_request [("format", "ply")]) "t" empty_world =
    (json_response 409 [("error", JStr "Job not completed"); ("status", JStr "PENDING")],
     called empty_world
       (status_call (sample_env (Some "k")) [("Authorization", "Bearer k")] "t")).
Proof.
  apply (get_result_not_ready (sample_env (Some "k")) _ "t" empty_world
           [("Authorization", "Bearer k")]
           {| status_code := 200;
              resp_json := Some (JObj [("status", JStr "PENDING"); ("progress", JInt 10)]);
              text := ""; content := [] |}
           (JObj [("status", JStr "PENDING"); ("progress", JInt 10)]));
    reflexivity.
Defined.

Lemma ai_model_normalized_witness :
  ∃ w',
    process_image (sample_env (Some "k"))
      (json_request (JObj [("image_url", JStr "http://x/y.png"); ("ai_model", JStr "bogus")]))
      empty_world
    = (json_response 202 [("task_id", JStr "task-1")], w') ∧
    trace w' =
      [Post "https://api.meshy.ai/openapi/v1/image-to-3d" [("Authorization", "Bearer k")]
         (JObj [("image_url", JStr "http://x/y.png"); ("enable_pbr", JBool true);
                ("should_remesh", JBool true); ("should_texture", JBool true);
                ("ai_model", JStr "latest")]) 60].
Proof.
  destruct (ai_model_normalized (sample_env (Some "k"))
              (json_request (JObj [("image_url", JStr "http://x/y.png");
                                   ("ai_model", JStr "bogus")]))
              empty_world) as (_ & _ & _ & _ & _ & Hfwd).
  destruct (Hfwd true true true (JStr "bogus")
              {| image_bytes := None; image_data_url := Some (JStr "http://x/y.png");
                 original_filename := None |}
              [("Authorization", "Bearer k")]
              {| status_code := 200;
                 resp_json := Some (JObj [("result", JStr "task-1")]);
                 text := ""; content := [] |}
              (JObj [("result", JStr "task-1")]) "task-1")
    as (w' & Hrun & Htrace & _); try reflexivity.
  - right. simpl. eauto.
  - discriminate.
  - exists w'. split; [exact Hrun|exact Htrace].
Defined.

Lemma missing_credential_witness :
  get_status (sample_env None) "t" empty_world =
    (json_response 500 [("error", JStr no_key_msg)], empty_world) ∧
  trace (process_image (sample_env None)
           (json_request (JObj [("image_url", JStr "http://x/y.png")])) empty_world).2 = [].
Proof.
  destruct (missing_credential (sample_env None)) as (Hst & _ & _ & Hpi & _).
  - left. reflexivity.
  - split; [apply Hst|apply Hpi].
Defined.

Lemma base64_takes_precedence_witness :
  parse_image (sample_env (Some "k")) (json_request both_body)
  = Ok (Some {| image_bytes := Some (list_byte_of_string "QUJD");
                image_data_url := None; original_filename := None |}).
Proof.
  apply (proj1 (base64_takes_precedence (sample_env (Some "k")) (json_request both_body)
                  empty_world both_body
                  "data:image/png;base64,QUJD" (list_byte_of_string "QUJD")
                  eq_refl eq_refl eq_refl eq_refl eq_refl
                  ltac:(discriminate) eq_refl)).
Defined.

End ProxyFacts.

(** ** More on the downsampler *)

Section DownsampleMore.
Import Py Viewer.

Lemma choice_ok draw n size idx :
  choice draw n size = Ok idx →
  (0 ≤ size ≤ Z.of_nat n)%Z ∧ length idx = Z.to_nat size ∧
  NoDup idx ∧ Forall (λ k, k < n) idx.
Proof.
  intros Hc.
  assert (0 ≤ size ≤ Z.of_nat n)%Z as Hsize.
  { unfold choice in Hc.
    destruct (Z.ltb_spec size 0); [done|].
    destruct (Z.ltb_spec (Z.of_nat n) size); [done|lia]. }
  split; [done|].
  destruct (choice_spec draw n size Hsize) as (idx' & Hc' & ?).
  rewrite Hc in Hc'. by injection Hc' as <-.
Qed.

Lemma index_by_ok {A} (a : list A) idx rows :
  index_by a idx = Ok rows →
  length rows = length idx ∧ ∀ i k, idx !! i = Some k → rows !! i = a !! k.
Proof.
  unfold index_by. destruct (mapM _ idx) as [rows'|] eqn:Hm; [|done].
  intros [= <-]. apply mapM_Some in Hm. split; [symmetry; by eapply Forall2_length|].
  intros i k Hik. destruct (Forall2_lookup_l _ _ _ _ _ Hm Hik) as (y & Hy & Hk).
  by rewrite Hy, Hk.
Qed.

(** What a returning call has done, with no assumption on the input. *)
Lemma downsample_ok {P C} draw (pts : list P) (cols : option (list C)) N pts' cols' :
  downsample draw pts cols N = Ok (pts', cols') →
  (Z.of_nat (length pts') ≤ N)%Z ∧
  length pts' = min (length pts) (Z.to_nat N) ∧
  (∀ p, p ∈ pts' → p ∈ pts) ∧
  (cols' = None ↔ cols = None) ∧
  ((∀ cs, cols = Some cs → length cs = length pts) →
   ∀ cs', cols' = Some cs' → length cs' = length pts').
Proof.
  unfold downsample. destruct (Z.ltb_spec N (Z.of_nat (length pts))) as [Hlt|Hge].
  - destruct (choice draw (length pts) N) as [idx|] eqn:Hc; [|done]. simpl.
    apply choice_ok in Hc as (Hsize & Hlen & _ & _).
    destruct (index_by pts idx) as [rows|] eqn:Hp; [|done]. simpl.
    apply index_by_ok in Hp as [Hrl Hrow].
    assert (length rows = Z.to_nat N) as Hrows by congruence.
    assert (∀ p, p ∈ rows → p ∈ pts) as Hsub.
    { intros p [i Hi]%list_elem_of_lookup.
      assert (is_Some (idx !! i)) as [k Hk].
      { apply lookup_lt_is_Some. rewrite <- Hrl. by eapply lookup_lt_Some. }
      rewrite (Hrow i k Hk) in Hi. by eapply list_elem_of_lookup_2. }
    destruct cols as [cs|].
    + destruct (index_by cs idx) as [crows|] eqn:Hcs; [|done]. simpl.
      apply index_by_ok in Hcs as [Hcl _].
      intros [= <- <-]. split; [lia|]. split; [lia|]. split; [done|].
      split; [done|]. intros _ cs' [= <-]. congruence.
    + simpl. intros [= <- <-]. split; [lia|]. split; [lia|]. split; [done|].
      split; [done|]. by intros _ cs'.
  - intros [= <- <-]. split; [lia|]. split; [lia|]. split; [done|].
    split; [done|]. intros Hpar cs' ->. by apply Hpar.
Qed.

(** X1. Sampling is idempotent: what one call returned, a second call
    with the same target (and any random draws) returns as it is. *)
Theorem downsample_idempotent {P C} (draw1 draw2 : nat → nat)
    (pts : list P) (cols : option (list C)) (N : Z) pts' cols' :
  downsample draw1 pts cols N = Ok (pts', cols') →
  downsample draw2 pts' cols' N = Ok (pts', cols').
Proof.
  intros (Hle & _)%downsample_ok. unfold downsample.
  destruct (Z.ltb_spec N (Z.of_nat (length pts'))); [lia|done].
Qed.

Lemma downsample_idempotent_witness :
  downsample (λ i, 2 * i) [20; 30; 40]%Z (Some ["b"; "c"; "d"]) 3
  = Ok ([20; 30; 40]%Z, Some ["b"; "c"; "d"]).
Proof.
  apply (downsample_idempotent (λ i, i + 1) (λ i, 2 * i)
           [10; 20; 30; 40; 50]%Z (Some ["a"; "b"; "c"; "d"; "e"]) 3).
  vm_compute. reflexivity.
Defined.

(** X2. Whenever [downsample] returns, it returns min(M, N) positions,
    each of them one of the input positions, colours exactly when
    colours went in, and as many colours as positions when the input
    was parallel. *)
Theorem downsample_keeps_invariant {P C} (draw : nat → nat)
    (pts : list P) (cols : option (list C)) (N : Z) pts' cols' :
  downsample draw pts cols N = Ok (pts', cols') →
  length pts' = min (length pts) (Z.to_nat N) ∧
  (∀ p, p ∈ pts' → p ∈ pts) ∧
  (cols' = None ↔ cols = None) ∧
  ((∀ cs, cols = Some cs → length cs = length pts) →
   ∀ cs', cols' = Some cs' → length cs' = length pts').
Proof. intros (_ & H)%downsample_ok. exact H. Qed.

Lemma downsample_keeps_invariant_witness :
  length [20; 30; 40]%Z = min (length [10; 20; 30; 40; 50]%Z) (Z.to_nat 3).
Proof.
  apply (proj1 (downsample_keeps_invariant (λ i, i + 1)
                  [10; 20; 30; 40; 50]%Z (Some ["a"; "b"; "c"; "d"; "e"]) 3
                  [20; 30; 40]%Z (Some ["b"; "c"; "d"]) eq_refl)).
Defined.

End DownsampleMore.


(** ** More on the rotation lock and the camera *)

Section RotationLockMore.
Import Viewer ViewerMain.
Local Open Scope R_scope.

Ltac positions i j :=
  destruct i as [|[|[|[|i]]]]; destruct j as [|[|[|[|j]]]];
  cbn [Nat.eqb Nat.ltb Nat.leb andb].

Lemma up_sign_unit y : up_sign y = 1 ∨ up_sign y = -1.
Proof. unfold up_sign. destruct (Rlt_dec y 0); auto. Qed.

(** The three steps on an arbitrary matrix. *)
Lemma lock_up_entries e i j :
  lock_up e i j =
    if (j =? 1)%nat && (i <? 3)%nat
    then (if (i =? 1)%nat then up_sign (e 1%nat 1%nat) else 0)
    else e i j.
Proof.
  unfold lock_up, mset, col. cbn [Nat.eqb andb].
  fold (up_sign (e 1%nat 1%nat)).
  rewrite (norm_unit 0 (up_sign (e 1%nat 1%nat)) 0)
    by (destruct (up_sign_unit (e 1%nat 1%nat)) as [-> | ->]; lra).
  unfold vdiv, set_col, mset.
  positions i j; try reflexivity; lra.
Qed.

Lemma lock_forward_general e i j :
  lock_forward e i j =
    if (j =? 2)%nat && (i <? 3)%nat
    then (if (i =? 1)%nat then 0 else e i j)
         / (norm (e 0%nat 2%nat, 0, e 2%nat 2%nat) + eps)
    else e i j.
Proof.
  unfold lock_forward, col, mset. cbn [Nat.eqb andb].
  unfold vdiv, set_col, mset.
  positions i j; reflexivity.
Qed.

Lemma lock_right_general e i j :
  lock_right e i j =
    if (j =? 0)%nat && (i <? 3)%nat
    then (let '(x, y, z) := cross (col e 1) (col e 2) in
          match i with O => x | 1%nat => y | _ => z end)
         / (norm (cross (col e 1) (col e 2)) + eps)
    else e i j.
Proof.
  unfold lock_right. destruct (cross (col e 1) (col e 2)) as [[x y] z] eqn:Hc.
  unfold vdiv, set_col, mset.
  positions i j; reflexivity.
Qed.

(** The columns of the corrected frame, whatever came in. *)
Lemma lock_columns y e :
  let s := up_sign (e 1%nat 1%nat) in
  let n := norm (e 0%nat 2%nat, 0, e 2%nat 2%nat) + eps in
  let f := (e 0%nat 2%nat / n, 0, e 2%nat 2%nat / n) in
  let o := lock_vertical_rotation y e in
  col o 1 = (0, s, 0) ∧
  col o 2 = f ∧
  col o 0 = vdiv (cross (0, s, 0) f) (norm (cross (0, s, 0) f) + eps).
Proof.
  intros s n f o.
  assert (∀ i j, lock_forward (lock_up (lock_height y e)) i j =
                 if (j =? 2)%nat && (i <? 3)%nat
                 then (if (i =? 1)%nat then 0 else e i j) / n
                 else if (j =? 1)%nat && (i <? 3)%nat
                 then (if (i =? 1)%nat then s else 0)
                 else lock_height y e i j) as H3.
  { intros i j. rewrite lock_forward_general, !lock_up_entries.
    unfold lock_height, mset. positions i j; reflexivity. }
  assert (col (lock_forward (lock_up (lock_height y e))) 1 = (0, s, 0)) as Hc1.
  { unfold col. rewrite !H3. cbn [Nat.eqb Nat.ltb Nat.leb andb]. done. }
  assert (col (lock_forward (lock_up (lock_height y e))) 2 = f) as Hc2.
  { unfold col. rewrite !H3. cbn [Nat.eqb Nat.ltb Nat.leb andb].
    replace (0 / n) with 0 by (unfold Rdiv; ring). reflexivity. }
  unfold o, lock_vertical_rotation, col.
  rewrite !lock_right_general. cbn [Nat.eqb Nat.ltb Nat.leb andb].
  fold (col (lock_forward (lock_up (lock_height y e))) 1).
  fold (col (lock_forward (lock_up (lock_height y e))) 2).
  rewrite Hc1, Hc2. split; [done|split; [done|]].
  destruct (cross (0, s, 0) f) as [[x y'] z]. reflexivity.
Qed.

Lemma lock_outside_block y e i j :
  (3 <= i)%nat ∨ (3 <= j)%nat →
  lock_vertical_rotation y e i j = if (i =? 1)%nat && (j =? 3)%nat then y else e i j.
Proof.
  intros Hout. unfold lock_vertical_rotation.
  rewrite lock_right_general, lock_forward_general, lock_up_entries.
  unfold lock_height, mset.
  destruct i as [|[|[|i]]]; destruct j as [|[|[|j]]];
    cbn [Nat.eqb Nat.ltb Nat.leb andb]; try reflexivity; lia.
Qed.

(** X3. Whatever frame comes in, the frame written back is level at
    the stored height: its up column is (0, 1, 0) or (0, -1, 0), with
    the sign of the old vertical entry, and neither its forward nor its
    right column has a vertical component. *)
Theorem lock_makes_level (initial_y : R) (e : mat) :
  level initial_y (lock_vertical_rotation initial_y e) ∧
  col (lock_vertical_rotation initial_y e) 1 = (0, up_sign (e 1%nat 1%nat), 0) ∧
  lock_vertical_rotation initial_y e 1%nat 0%nat = 0.
Proof.
  destruct (lock_columns initial_y e) as (Hc1 & Hc2 & Hc0). cbv zeta in *.
  set (o := lock_vertical_rotation initial_y e) in *.
  split; [split; [|split]|split].
  - rewrite Hc1. destruct (up_sign_unit (e 1%nat 1%nat)) as [-> | ->]; auto.
  - exact (f_equal (λ v : vec3, v.1.2) Hc2).
  - unfold o. rewrite lock_outside_block by (right; lia). reflexivity.
  - exact Hc1.
  - change (o 1%nat 0%nat) with ((col o 0).1.2). rewrite Hc0.
    unfold cross, vdiv. cbn [fst snd]. unfold Rdiv. ring.
Qed.

(** A vector divided by its length plus [eps] is shorter than 1. *)
Lemma damped_short x y z :
  let q := norm (x, y, z) + eps in
  dot (vdiv (x, y, z) q) (vdiv (x, y, z) q) < 1.
Proof.
  intros q. pose proof eps_pos as He.
  set (r := norm (x, y, z)) in *.
  assert (0 <= r) as Hr by apply sqrt_pos.
  assert (r * r = x * x + y * y + z * z) as Hrr.
  { unfold r, norm. rewrite sqrt_sqrt; [ring|nra]. }
  assert (0 < q) as Hq by (unfold q; lra).
  assert (/ q * q = 1) as Hiq by (field; lra).
  assert (0 < / q) as Hiqp by (apply Rinv_0_lt_compat; lra).
  assert (0 <= r * / q) as Hlo by nra.
  assert (r * / q < 1) as Hhi by (unfold q in *; nra).
  assert ((r * r) * (/ q * / q) = (r * / q) * (r * / q)) as Hsq by ring.
  unfold vdiv, dot, Rdiv.
  replace (x * / q * (x * / q) + y * / q * (y * / q) + z * / q * (z * / q))
    with ((r * r) * (/ q * / q)) by (rewrite Hrr; ring).
  rewrite Hsq. nra.
Qed.

(** X4. The three columns written back are pairwise orthogonal for
    every input; the up column has length 1, while the forward and the
    right column are strictly shorter than 1. *)
Theorem lock_orthogonal (initial_y : R) (e : mat) :
  let o := lock_vertical_rotation initial_y e in
  dot (col o 0) (col o 1) = 0 ∧ dot (col o 0) (col o 2) = 0 ∧
  dot (col o 1) (col o 2) = 0 ∧
  dot (col o 1) (col o 1) = 1 ∧
  dot (col o 2) (col o 2) < 1 ∧ dot (col o 0) (col o 0) < 1.
Proof.
  intros o. destruct (lock_columns initial_y e) as (Hc1 & Hc2 & Hc0). cbv zeta in *.
  fold o in Hc1, Hc2, Hc0. rewrite Hc0, Hc1, Hc2. clear Hc0 Hc1 Hc2 o.
  generalize (up_sign_unit (e 1%nat 1%nat)).
  generalize (up_sign (e 1%nat 1%nat)) (e 0%nat 2%nat) (e 2%nat 2%nat).
  intros s a c Hs.
  assert (s * s = 1) as Hss by (destruct Hs; subst; lra).
  split; [|split; [|split; [|split; [|split]]]].
  - unfold cross, vdiv, dot, Rdiv. ring.
  - unfold cross, vdiv, dot, Rdiv. ring.
  - unfold dot, Rdiv. ring.
  - unfold dot. lra.
  - pose proof (damped_short a 0 c) as Hd. cbv zeta in Hd.
    unfold vdiv in Hd. replace (0 / (norm (a, 0, c) + eps)) with 0 in Hd
      by (unfold Rdiv; ring). exact Hd.
  - destruct (cross (0, s, 0) (a / (norm (a, 0, c) + eps), 0, c / (norm (a, 0, c) + eps)))
      as [[x y] z]. apply damped_short.
Qed.

(** X5. When the forward column that comes in is vertical (the camera
    looks straight up or down), the forward and the right column written
    back are both zero: the frame degenerates, nothing fails. *)
Theorem lock_degenerate (initial_y : R) (e : mat) :
  e 0%nat 2%nat = 0 → e 2%nat 2%nat = 0 →
  col (lock_vertical_rotation initial_y e) 2 = (0, 0, 0) ∧
  col (lock_vertical_rotation initial_y e) 0 = (0, 0, 0).
Proof.
  intros Ha Hc. destruct (lock_columns initial_y e) as (_ & Hc2 & Hc0). cbv zeta in *.
  rewrite Hc0, Hc2, Ha, Hc. clear.
  generalize (up_sign (e 1%nat 1%nat)) (norm (0, 0, 0) + eps). intros s n.
  replace (0 / n) with 0 by (unfold Rdiv; ring). split; [done|].
  unfold cross.
  replace (s * 0 - 0 * 0) with 0 by ring.
  replace (0 * 0 - 0 * 0) with 0 by ring.
  replace (0 * 0 - s * 0) with 0 by ring.
  unfold vdiv. generalize (norm (0, 0, 0) + eps). intros m.
  replace (0 / m) with 0 by (unfold Rdiv; ring). done.
Qed.

Lemma lock_degenerate_witness :
  col (lock_vertical_rotation 0 (λ i j, if (i =? 1)%nat && (j =? 2)%nat then 1 else 0)) 2
  = (0, 0, 0).
Proof.
  apply (proj1 (lock_degenerate 0
                  (λ i j, if (i =? 1)%nat && (j =? 2)%nat then 1 else 0)
                  eq_refl eq_refl)).
Defined.

(** X6. The correction stores into the rotation block and into the
    height only: the bottom row and the other two translation entries
    are written back as they were read, and the height is the stored
    one. *)
Theorem lock_keeps_translation (initial_y : R) (e : mat) :
  lock_vertical_rotation initial_y e 1%nat 3%nat = initial_y ∧
  lock_vertical_rotation initial_y e 0%nat 3%nat = e 0%nat 3%nat ∧
  lock_vertical_rotation initial_y e 2%nat 3%nat = e 2%nat 3%nat ∧
  ∀ j, lock_vertical_rotation initial_y e 3%nat j = e 3%nat j.
Proof.
  repeat split; intros; rewrite lock_outside_block by lia; reflexivity.
Qed.
End RotationLockMore.


Section CameraMore.
Import Viewer ViewerMain.
Local Open Scope R_scope.

(** X7. The start pose is a rigid frame, level at height -0, and it
    takes the world point (0, 0, distance) to the camera origin: that is
    where the camera sits. *)
Theorem start_pose_camera_centre (a : args) :
  rigid (initial_extrinsic a) ∧
  level (- 0) (initial_extrinsic a) ∧
  transform (initial_extrinsic a) (0, 0, distance a) = (0, 0, 0).
Proof.
  split; [apply start_pose_rigid|split; [apply start_pose_level|]].
  unfold transform, initial_extrinsic, mset, eye. cbn [Nat.eqb andb].
  f_equal; [f_equal|]; ring.
Qed.

(** X8. The intrinsic realises the configured field of view: for
    0 < fov < 180 and a positive width, the horizontal angle subtended
    by the image, 2 atan((w/2) / fx), is fov degrees. *)
Theorem intrinsic_fov_round_trip (a : args) :
  (0 < fov a < 180)%Z → (0 < width a)%Z →
  2 * atan (cx (camera_intrinsic a) / fx (camera_intrinsic a)) = radians (IZR (fov a)).
Proof.
  intros Hfov Hw. apply IZR_lt in Hw.
  destruct (half_fov_range _ Hfov) as [Hlo Hhi].
  pose proof (tan_gt_0 _ Hlo Hhi) as Ht.
  simpl. unfold focal_length.
  replace (IZR (width a) / 2 / (IZR (width a) / (2 * tan (radians (IZR (fov a) / 2)))))
    with (tan (radians (IZR (fov a) / 2))) by (field; lra).
  rewrite atan_tan by lra. unfold radians. field.
Qed.

Lemma intrinsic_fov_round_trip_witness :
  2 * atan (cx (camera_intrinsic default_args) / fx (camera_intrinsic default_args))
  = radians 100.
Proof. apply (intrinsic_fov_round_trip default_args); simpl; lia. Defined.

(** X9. For a fixed positive width, widening the field of view shortens
    the focal length. *)
Theorem focal_length_decreasing (a b : args) :
  width a = width b → (0 < width a)%Z →
  (0 < fov a)%Z → (fov a < fov b)%Z → (fov b < 180)%Z →
  focal_length b < focal_length a.
Proof.
  intros Hw Hpos Ha Hab Hb. unfold focal_length. rewrite <- Hw.
  apply IZR_lt in Hpos.
  destruct (half_fov_range (fov a)) as [Hlo Hhi]; [lia|].
  destruct (half_fov_range (fov b)) as [Hlo' Hhi']; [lia|].
  pose proof (tan_gt_0 _ Hlo Hhi) as Hta.
  assert (tan (radians (IZR (fov a) / 2)) < tan (radians (IZR (fov b) / 2))) as Hinc.
  { apply tan_increasing; [lra| |lra].
    apply IZR_lt in Hab. unfold radians. pose proof PI_RGT_0. nra. }
  unfold Rdiv. apply Rmult_lt_compat_l; [lra|].
  apply Rinv_lt_contravar; [nra|lra].
Qed.

Lemma focal_length_decreasing_witness :
  focal_length {| width := 1400; height := 900; fov := 120; distance := 0 |}
  < focal_length default_args.
Proof. apply focal_length_decreasing; simpl; (reflexivity || lia). Defined.

End CameraMore.


(** ** Loading and the entry point *)

Section MainFacts.
Import Py Viewer ViewerMain.

Lemma channel_in_unit (b : Byte.byte) : in_unit (channel b) = true.
Proof. destruct b; vm_compute; reflexivity. Qed.

Lemma channel_valid (b : Byte.byte) : valid_binary prec emax (channel b) = true.
Proof. destruct b; vm_compute; reflexivity. Qed.

(** X10. A missing file ends [load_ply] with FileNotFoundError before
    the loader is asked.  When it returns, the positions are the
    loader's vertices, there is one colour per RGBA row, the alpha
    channel is dropped, and every colour channel is a float64 between
    0.0 and 1.0. *)
Theorem load_ply_spec (H : host) (p : string) :
  (path_exists H p = false →
   load_ply H p = FileNotFoundError ("PLY 파일을 찾을 수 없습니다: " ++ p)) ∧
  (∀ pts cols, load_ply H p = Done (pts, cols) →
     ∃ m, trimesh_load H p = Ok m ∧ pts = vertices m ∧
          match vertex_colors m, cols with
          | Some vc, Some cs =>
              length cs = length vc ∧ Forall unit_colour cs ∧
              ∀ i r g b al, vc !! i = Some (r, g, b, al) →
                            cs !! i = Some (channel r, channel g, channel b)
          | None, None => True
          | _, _ => False
          end).
Proof.
  unfold load_ply. split.
  - by intros ->.
  - intros pts cols. destruct (path_exists H p); simpl; [|done].
    destruct (trimesh_load H p) as [m|]; [|done].
    intros [= <- <-]. exists m. split; [done|split; [done|]].
    destruct (vertex_colors m) as [vc|]; [|done].
    split; [by rewrite length_fmap|split].
    + apply Forall_fmap, Forall_forall. intros [[[r g] b] al] _. simpl.
      by rewrite !channel_in_unit.
    + intros i r g b al Hi. rewrite list_lookup_fmap.
      change (vc !! i = Some ((r, g, b, al) : rgba)) in Hi. by rewrite Hi.
Qed.

Lemma load_ply_spec_witness :
  load_ply sample_host "missing.ply"
  = FileNotFoundError ("PLY 파일을 찾을 수 없습니다: " ++ "missing.ply").
Proof. apply (proj1 (load_ply_spec sample_host "missing.ply")). reflexivity. Defined.

(** X11. With a file that does not exist, [main] returns 1 and nothing
    is shown. *)
Theorem main_missing_file (H : host) (a : cli) :
  path_exists H (ply a) = false → main H a = (1%Z, []).
Proof. intros Hno. unfold main, load_ply. by rewrite Hno. Qed.

Lemma main_missing_file_witness :
  main sample_host
    {| ply := "missing.ply"; max_points := 10; size := 1%R; bgcolor := "black";
       invert := true; axis := true; horizontal_only := false; view := default_args |}
  = (1%Z, []).
Proof. apply main_missing_file. reflexivity. Defined.

(** X12. With [--points] zero or negative, [main] returns 1 and nothing
    is shown, whatever the file holds: a negative count stops in the
    sampler, and an empty selection (or an empty file, for every count)
    stops at the bounding box. *)
Theorem main_no_points (H : host) (a : cli) :
  ((max_points a ≤ 0)%Z → main H a = (1%Z, [])) ∧
  (∀ m, trimesh_load H (ply a) = Ok m → vertices m = [] → main H a = (1%Z, [])).
Proof.
  split.
  - intros Hn. unfold main.
    destruct (load_ply H (ply a)) as [[pts cols]| |]; try done.
    destruct (downsample (draw H) pts cols (max_points a)) as [[pts' cols']|] eqn:Hd;
      [|done].
    apply downsample_ok in Hd as (Hle & _).
    destruct pts' as [|p pts']; [done|]. simpl in Hle. lia.
  - intros m Hm Hv. unfold main, load_ply.
    destruct (path_exists H (ply a)); simpl; [|done].
    rewrite Hm, Hv.
    destruct (downsample _ _ _ _) as [[pts' cols']|] eqn:Hd; [|done].
    apply downsample_ok in Hd as (_ & Hlen & _). simpl in Hlen.
    by destruct pts'.
Qed.

Lemma main_no_points_witness :
  main sample_host
    {| ply := "image360_2.ply"; max_points := 0; size := 1%R; bgcolor := "black";
       invert := true; axis := true; horizontal_only := false; view := default_args |}
  = (1%Z, []).
Proof. apply (proj1 (main_no_points _ _)). simpl. lia. Defined.




(** X14. [main] never shows more than one scene; it returns 0 or 1, and
    0 only when one scene was shown and the window closed normally; the
    scene then has at least one and at most [--points] positions, the
    start pose as extrinsic and the configured intrinsic. *)
Theorem main_exit_code (H : host) (a : cli) :
  ((main H a).1 = 0%Z ∨ (main H a).1 = 1%Z) ∧
  length (main H a).2 ≤ 1 ∧
  ((main H a).1 = 0%Z →
   ∃ sc, (main H a).2 = [sc] ∧ render H sc = Ok () ∧
         (0 < Z.of_nat (length (points sc)) ≤ max_points a)%Z ∧
         extrinsic sc = initial_extrinsic (view a) ∧
         camera sc = camera_intrinsic (view a)).
Proof.
  unfold main.
  destruct (load_ply H (ply a)) as [[pts cols]| |]; simpl; try (split; [auto|split; [lia|done]]).
  destruct (downsample (draw H) pts cols (max_points a)) as [[pts' cols']|] eqn:Hd;
    simpl; try (split; [auto|split; [lia|done]]).
  apply downsample_ok in Hd as (Hle & _).
  unfold show_open3d_viewer. destruct pts' as [|p pts']; simpl;
    try (split; [auto|split; [lia|done]]).
  destruct (render H _) as [[]|] eqn:Hr; simpl; (split; [auto|split; [lia|]]); [|done].
  intros _. eexists. split; [done|]. split; [exact Hr|]. simpl.
  split; [|done]. destruct (invert a); simpl in *;
    unfold negate; rewrite ?length_fmap; lia.
Qed.

Lemma main_exit_code_witness :
  ∃ sc, (main sample_host default_cli).2 = [sc] ∧ render sample_host sc = Ok ().
Proof.
  destruct (main_exit_code sample_host default_cli) as (_ & _ & Hzero).
  destruct Hzero as (sc & Hshown & Hrender & _); [reflexivity|].
  exists sc. split; assumption.
Defined.
End MainFacts.


(** ** More on the proxy *)

Section ProxyMoreFacts.
Import Py Proxy ProxyMore.

Lemma headers_with_key E key :
  MESHY_API_KEY E = Some key → key ≠ "" → _meshy_headers E = Ok (auth key).
Proof.
  intros Hk Hne. unfold _meshy_headers. rewrite Hk.
  by destruct (String.eqb_spec key "").
Qed.

Lemma headers_ok_inv E h :
  _meshy_headers E = Ok h → ∃ key, MESHY_API_KEY E = Some key ∧ key ≠ "" ∧ h = auth key.
Proof.
  unfold _meshy_headers. destruct (MESHY_API_KEY E) as [key|]; [|done].
  destruct (String.eqb_spec key ""); [done|]. intros [= <-]. eauto.
Qed.

Lemma run_ret w {A} (a : A) : run (mret a) w = (Ok a, w).
Proof. reflexivity. Qed.

(** X15. With a credential, a status call that is answered successfully
    with a JSON object is answered 200 with exactly the four fields
    status, progress, message and model_urls of that object (null where
    the object lacks one); it is the only call made. *)
Theorem get_status_projects (E : env) (id : string) (w : world)
    (key : string) (resp : response) (j : json) :
  MESHY_API_KEY E = Some key → key ≠ "" →
  upstream E (trace w) (status_call E (auth key) id) = Ok resp →
  ok resp = true → resp_json resp = Some j → dict_like j = true →
  get_status E id w =
    (json_response 200
       [("status", field j "status"); ("progress", field j "progress");
        ("message", field j "message"); ("model_urls", field j "model_urls")],
     called w (status_call E (auth key) id)).
Proof.
  intros Hk Hne Hup Hok Hj Hd. unfold get_status, handle.
  rewrite (headers_with_key E key Hk Hne), run_lift_ok, run_http_bind.
  fold (status_call E (auth key) id). rewrite Hup, Hok.
  change (negb true) with false. cbv iota.
  unfold json_of. rewrite Hj, run_lift_ok. cbv beta.
  rewrite !get_dict_like_null by done.
  by rewrite !run_lift_ok.
Qed.

Lemma get_status_projects_witness :
  get_status (sample_env (Some "k")) "t" empty_world =
    (json_response 200
       [("status", JStr "PENDING"); ("progress", JInt 10);
        ("message", JNull); ("model_urls", JNull)],
     called empty_world (status_call (sample_env (Some "k")) (auth "k") "t")).
Proof.
  apply (get_status_projects (sample_env (Some "k")) "t" empty_world "k"
           {| status_code := 200;
              resp_json := Some (JObj [("status", JStr "PENDING"); ("progress", JInt 10)]);
              text := ""; content := [] |}
           (JObj [("status", JStr "PENDING"); ("progress", JInt 10)]));
    (reflexivity || discriminate).
Defined.

(** X16. With a credential, a status call that the remote side answers
    with an error status is relayed: same status code, and as detail the
    remote JSON body, or its text when the body is not JSON. *)
Theorem get_status_relays_failure (E : env) (id : string) (w : world)
    (key : string) (resp : response) :
  MESHY_API_KEY E = Some key → key ≠ "" →
  upstream E (trace w) (status_call E (auth key) id) = Ok resp →
  ok resp = false →
  get_status E id w =
    (json_response (status_code resp)
       [("error", JStr "Meshy status failed");
        ("detail", match resp_json resp with
                   | Some body => body
                   | None => JObj [("text", JStr (text resp))]
                   end)],
     called w (status_call E (auth key) id)) ∧
  400 ≤ status_code resp < 600.
Proof.
  intros Hk Hne Hup Hok. split.
  - unfold get_status, handle.
    rewrite (headers_with_key E key Hk Hne), run_lift_ok, run_http_bind.
    fold (status_call E (auth key) id). rewrite Hup, Hok.
    change (negb false) with true. cbv iota. by destruct (resp_json resp).
  - unfold ok in Hok. apply negb_false_iff, andb_true_iff in Hok as [H1 H2].
    apply Nat.leb_le in H1. apply Nat.ltb_lt in H2. lia.
Qed.

Lemma get_status_relays_failure_witness :
  get_status failing_env "t" empty_world =
    (json_response 404
       [("error", JStr "Meshy status failed");
        ("detail", JObj [("text", JStr "not found")])],
     called empty_world (status_call failing_env (auth "k") "t")).
Proof.
  apply (proj1 (get_status_relays_failure failing_env "t" empty_world "k"
                  {| status_code := 404; resp_json := None;
                     text := "not found"; content := [] |}
                  eq_refl ltac:(discriminate) eq_refl eq_refl)).
Defined.

(** The result handler once the job is known to have succeeded. *)
Lemma get_result_succeeded E r id w key j :
  str_in (fmt_of r) ["glb"; "obj"; "ply"] = true →
  status_answers E w key id j →
  field j "status" = JStr "SUCCEEDED" →
  dict_like (field j "model_urls") = true →
  get_result E r id w =
    handle
      (let model_url := field (field j "model_urls") "glb" in
       if negb (truthy model_url) then
         mret (json_response 502 [("error", JStr "GLB URL missing in Meshy response")])
       else
         fetch E model_url ≫= λ mresp,
         if fmt_of r =? "glb" then
           mret (send_file (content mresp) "model/gltf-binary" (id ++ ".glb"))
         else
           match convert E (content mresp) (fmt_of r) with
           | Ok out_bytes =>
               mret (send_file out_bytes "application/octet-stream"
                       (id ++ "." ++ fmt_of r))
           | Raise ce =>
               mret (json_response 500
                       [("error", JStr ("Conversion to " ++ fmt_of r ++ " failed"));
                        ("detail", JStr (str ce))])
           end)
      (called w (status_call E (auth key) id)).
Proof.
  intros Hfmt (Hk & Hne & sresp & Hup & Hok & Hj & Hd) Hst Hmu.
  unfold get_result. rewrite Hfmt. change (negb true) with false. cbv iota beta.
  unfold handle.
  rewrite (headers_with_key E key Hk Hne), run_lift_ok, run_http_bind.
  fold (status_call E (auth key) id). rewrite Hup, Hok.
  change (negb true) with false. cbv iota.
  unfold json_of. rewrite Hj, run_lift_ok. cbv beta.
  rewrite !get_dict_like_null by done. rewrite run_lift_ok. cbv beta.
  rewrite Hst. change (negb (is_str "SUCCEEDED" (JStr "SUCCEEDED"))) with false.
  cbv iota. rewrite run_lift_ok. cbv beta.
  rewrite get_dict_like_null by done. rewrite run_lift_ok. cbv beta.
  reflexivity.
Qed.

(** X17. For format glb, once the status call reports SUCCEEDED with a
    model URL, the bytes served at that URL are passed through unchanged
    as model/gltf-binary, whatever HTTP status the URL answered with;
    two calls are made, and the second one, to the model URL, carries no
    header, hence no credential. *)
Theorem get_result_glb_passthrough (E : env) (r : request) (id : string) (w : world)
    (key : string) (j : json) (url : string) (mresp : response) :
  fmt_of r = "glb" →
  status_answers E w key id j →
  field j "status" = JStr "SUCCEEDED" →
  dict_like (field j "model_urls") = true →
  field (field j "model_urls") "glb" = JStr url → url ≠ "" →
  upstream E (trace w ++ [status_call E (auth key) id])%list (model_call url) = Ok mresp →
  get_result E r id w =
    (send_file (content mresp) "model/gltf-binary" (id ++ ".glb"),
     called (called w (status_call E (auth key) id)) (model_call url)).
Proof.
  intros Hfmt Hsa Hst Hmu Hurl Hne Hup.
  rewrite (get_result_succeeded E r id w key j) by (try done; by rewrite Hfmt).
  cbv zeta. rewrite Hurl.
  assert (truthy (JStr url) = true) as -> by (simpl; by destruct (String.eqb_spec url "")).
  change (negb true) with false. cbv iota. unfold handle, fetch.
  rewrite run_http_bind. fold (model_call url).
  change (trace (called w (status_call E (auth key) id)))
    with (trace w ++ [status_call E (auth key) id])%list.
  rewrite Hup, Hfmt. reflexivity.
Qed.

Lemma done_env_answers :
  status_answers done_env empty_world "k" "t"
    (JObj [("status", JStr "SUCCEEDED");
           ("model_urls", JObj [("glb", JStr "https://cdn/m.glb")])]).
Proof.
  split; [reflexivity|]. split; [discriminate|].
  eexists. split; [reflexivity|]. repeat split.
Defined.

Lemma get_result_glb_passthrough_witness :
  get_result done_env (query_request []) "t" empty_world =
    (send_file [Byte.x67; Byte.x6c; Byte.x54] "model/gltf-binary" "t.glb",
     called (called empty_world (status_call done_env (auth "k") "t"))
       (model_call "https://cdn/m.glb")).
Proof.
  apply (get_result_glb_passthrough done_env (query_request []) "t" empty_world "k"
           (JObj [("status", JStr "SUCCEEDED");
                  ("model_urls", JObj [("glb", JStr "https://cdn/m.glb")])])
           "https://cdn/m.glb"
           {| status_code := 200; resp_json := None; text := "";
              content := [Byte.x67; Byte.x6c; Byte.x54] |});
    try reflexivity.
  - exact done_env_answers.
  - discriminate.
Defined.

(** X18. For format obj or ply, the fetched bytes go through the
    converter: its output is served as application/octet-stream under
    the name id.format, and any exception it raises, a RuntimeError
    included, is answered 500 with "Conversion to <format> failed" and
    the exception text. *)
Theorem get_result_converts (E : env) (r : request) (id : string) (w : world)
    (key : string) (j : json) (url : string) (mresp : response) :
  fmt_of r = "obj" ∨ fmt_of r = "ply" →
  status_answers E w key id j →
  field j "status" = JStr "SUCCEEDED" →
  dict_like (field j "model_urls") = true →
  field (field j "model_urls") "glb" = JStr url → url ≠ "" →
  upstream E (trace w ++ [status_call E (auth key) id])%list (model_call url) = Ok mresp →
  (get_result E r id w).1 =
    match convert E (content mresp) (fmt_of r) with
    | Ok out_bytes =>
        send_file out_bytes "application/octet-stream" (id ++ "." ++ fmt_of r)
    | Raise ce =>
        json_response 500
          [("error", JStr ("Conversion to " ++ fmt_of r ++ " failed"));
           ("detail", JStr (str ce))]
    end.
Proof.
  intros Hfmt Hsa Hst Hmu Hurl Hne Hup.
  rewrite (get_result_succeeded E r id w key j);
    [|by destruct Hfmt as [-> | ->]|done|done|done].
  cbv zeta. rewrite Hurl.
  assert (truthy (JStr url) = true) as -> by (simpl; by destruct (String.eqb_spec url "")).
  change (negb true) with false. cbv iota. unfold handle, fetch.
  rewrite run_http_bind. fold (model_call url).
  change (trace (called w (status_call E (auth key) id)))
    with (trace w ++ [status_call E (auth key) id])%list.
  rewrite Hup.
  assert ((fmt_of r =? "glb") = false) as -> by (by destruct Hfmt as [-> | ->]).
  by destruct (convert E (content mresp) (fmt_of r)).
Qed.

Lemma get_result_converts_witness :
  (get_result done_env (query_request [("format", "OBJ")]) "t" empty_world).1 =
    send_file [Byte.x67; Byte.x6c; Byte.x54] "application/octet-stream" "t.obj".
Proof.
  apply (get_result_converts done_env (query_request [("format", "OBJ")]) "t" empty_world
           "k"
           (JObj [("status", JStr "SUCCEEDED");
                  ("model_urls", JObj [("glb", JStr "https://cdn/m.glb")])])
           "https://cdn/m.glb"
           {| status_code := 200; resp_json := None; text := "";
              content := [Byte.x67; Byte.x6c; Byte.x54] |});
    try reflexivity.
  - left. reflexivity.
  - exact done_env_answers.
  - discriminate.
Defined.

(** X19. When the status call reports SUCCEEDED but carries no usable
    glb URL (no model_urls, or no non-empty glb entry in it), the answer
    is 502 and the status call is the only call made. *)
Theorem get_result_missing_url (E : env) (r : request) (id : string) (w : world)
    (key : string) (j : json) :
  str_in (fmt_of r) ["glb"; "obj"; "ply"] = true →
  status_answers E w key id j →
  field j "status" = JStr "SUCCEEDED" →
  dict_like (field j "model_urls") = true →
  truthy (field (field j "model_urls") "glb") = false →
  get_result E r id w =
    (json_response 502 [("error", JStr "GLB URL missing in Meshy response")],
     called w (status_call E (auth key) id)).
Proof.
  intros Hfmt Hsa Hst Hmu Hno.
  rewrite (get_result_succeeded E r id w key j) by done.
  cbv zeta. by rewrite Hno.
Qed.

Lemma get_result_missing_url_witness :
  get_result no_url_env (query_request []) "t" empty_world =
    (json_response 502 [("error", JStr "GLB URL missing in Meshy response")],
     called empty_world (status_call no_url_env (auth "k") "t")).
Proof.
  apply (get_result_missing_url no_url_env (query_request []) "t" empty_world "k"
           (JObj [("status", JStr "SUCCEEDED")])); try reflexivity.
  split; [reflexivity|]. split; [discriminate|].
  eexists. split; [reflexivity|]. repeat split.
Defined.

(** *** What the handlers never do *)

Lemma inert_lift {A} (r : res A) : inert (lift r).
Proof. by intros w. Qed.

Lemma inert_ret {A} (a : A) : inert (mret a).
Proof. by intros w. Qed.

Lemma inert_bind {A B} (m : M A) (k : A → M B) :
  inert m → (∀ a, inert (k a)) → inert (m ≫= k).
Proof.
  intros Hm Hk w. rewrite run_bind. specialize (Hm w).
  destruct (run m w) as [[a|e] w']; simpl in *; subst; [apply Hk|done].
Qed.

Lemma inert_at_most {A} P (m : M A) : inert m → at_most_call P m.
Proof. intros Hm w. left. apply Hm. Qed.

Lemma at_most_lift_bind {A B} P (r : res A) (k : A → M B) :
  (∀ a, at_most_call P (k a)) → at_most_call P (lift r ≫= k).
Proof.
  intros Hk w. rewrite run_lift_bind. destruct r as [a|e]; [apply Hk|by left].
Qed.

Lemma at_most_http {B} (P : net_call → Prop) E c (k : response → M B) :
  P c → (∀ a, inert (k a)) → at_most_call P (http E c ≫= k).
Proof.
  intros Hc Hk w. right. exists c. split; [done|]. rewrite run_http_bind.
  destruct (upstream E (trace w) c) as [a|e]; [apply Hk|done].
Qed.

Lemma handle_world m w : (handle m w).2 = (run m w).2.
Proof. unfold handle. by destruct (run m w) as [[?|[]] ?]. Qed.

(** X20. The two read handlers never touch the files, and the calls
    they make are fixed in number and kind: [get_status] makes no call
    or the one status call with the bearer header; [get_result] makes no
    call, that status call alone, or that status call followed by one
    header-less fetch. *)
Theorem read_handlers_shape (E : env) (r : request) (id : string) (w : world) :
  ((get_status E id w).2 = w ∨
   ∃ key, MESHY_API_KEY E = Some key ∧
          (get_status E id w).2 = called w (status_call E (auth key) id)) ∧
  ((get_result E r id w).2 = w ∨
   ∃ key, MESHY_API_KEY E = Some key ∧
          ((get_result E r id w).2 = called w (status_call E (auth key) id) ∨
           ∃ url, (get_result E r id w).2 =
                    called (called w (status_call E (auth key) id)) (model_call url))).
Proof.
  split.
  - unfold get_status. rewrite handle_world, run_lift_bind.
    destruct (_meshy_headers E) as [h|e] eqn:Hh; [|by left].
    apply headers_ok_inv in Hh as (key & Hk & _ & ->).
    right. exists key. split; [done|]. rewrite run_http_bind.
    fold (status_call E (auth key) id).
    destruct (upstream E _ _) as [resp|e]; [|done].
    revert resp. 
    assert (∀ resp, inert
      (if negb (ok resp)
       then mret (json_response (status_code resp)
              [("error", JStr "Meshy status failed");
               ("detail", default (JObj [("text", JStr (text resp))]) (resp_json resp))])
       else lift (json_of resp) ≫= λ j,
            lift (get (or_empty j) "status" JNull) ≫= λ status,
            lift (get (or_empty j) "progress" JNull) ≫= λ progress,
            lift (get (or_empty j) "message" JNull) ≫= λ message,
            lift (get (or_empty j) "model_urls" JNull) ≫= λ model_urls,
            mret (json_response 200
                    [("status", status); ("progress", progress);
                     ("message", message); ("model_urls", model_urls)]))) as Hin.
    { intros resp. destruct (negb (ok resp)); [apply inert_ret|].
      repeat (apply inert_bind; [apply inert_lift|intros ?]). apply inert_ret. }
    intros resp. apply Hin.
  - unfold get_result.
    destruct (negb (str_in (fmt_of r) ["glb"; "obj"; "ply"])); [by left|].
    rewrite handle_world, run_lift_bind.
    destruct (_meshy_headers E) as [h|e] eqn:Hh; [|by left].
    apply headers_ok_inv in Hh as (key & Hk & _ & ->).
    right. exists key. split; [done|]. rewrite run_http_bind.
    fold (status_call E (auth key) id).
    destruct (upstream E _ _) as [sresp|e]; [|by left].
    generalize (called w (status_call E (auth key) id)). intros w1.
    assert (at_most_call (λ c, ∃ url, c = model_call url)
      (if negb (ok sresp)
       then mret (json_response (status_code sresp)
                    [("error", JStr "Failed to get status from Meshy")])
       else lift (json_of sresp) ≫= λ j,
            lift (get (or_empty j) "status" JNull) ≫= λ status,
            if negb (is_str "SUCCEEDED" status)
            then mret (json_response 409
                         [("error", JStr "Job not completed"); ("status", status)])
            else lift (get (or_empty j) "model_urls" JNull) ≫= λ model_urls,
                 lift (get (or_empty model_urls) "glb" JNull) ≫= λ model_url,
                 if negb (truthy model_url)
                 then mret (json_response 502
                              [("error", JStr "GLB URL missing in Meshy response")])
                 else fetch E model_url ≫= λ mresp,
                      if fmt_of r =? "glb"
                      then mret (send_file (content mresp) "model/gltf-binary" (id ++ ".glb"))
                      else match convert E (content mresp) (fmt_of r) with
                           | Ok out_bytes =>
                               mret (send_file out_bytes "application/octet-stream"
                                       (id ++ "." ++ fmt_of r))
                           | Raise ce =>
                               mret (json_response 500
                                       [("error",
                                         JStr ("Conversion to " ++ fmt_of r ++ " failed"));
                                        ("detail", JStr (str ce))])
                           end)) as Hat.
    { destruct (negb (ok sresp)); [apply inert_at_most, inert_ret|].
      apply at_most_lift_bind. intros j. apply at_most_lift_bind. intros status.
      destruct (negb (is_str "SUCCEEDED" status)); [apply inert_at_most, inert_ret|].
      apply at_most_lift_bind. intros model_urls.
      apply at_most_lift_bind. intros model_url.
      destruct (negb (truthy model_url)); [apply inert_at_most, inert_ret|].
      assert (∀ mresp, inert
        (if fmt_of r =? "glb"
         then mret (send_file (content mresp) "model/gltf-binary" (id ++ ".glb"))
         else match convert E (content mresp) (fmt_of r) with
              | Ok out_bytes =>
                  mret (send_file out_bytes "application/octet-stream"
                          (id ++ "." ++ fmt_of r))
              | Raise ce =>
                  mret (json_response 500
                          [("error", JStr ("Conversion to " ++ fmt_of r ++ " failed"));
                           ("detail", JStr (str ce))])
              end)) as Htail.
      { intros mresp. destruct (fmt_of r =? "glb"); [apply inert_ret|].
        destruct (convert E _ _); apply inert_ret. }
      unfold fetch. destruct model_url;
        try (apply inert_at_most, inert_bind; [apply inert_lift|apply Htail]).
      apply at_most_http; [by eexists|apply Htail]. }
    destruct (Hat w1) as [-> | (c & [url ->] & ->)]; [by left|].
    right. by exists url.
Qed.

(** *** Job creation, all cases *)

(** What the remote creation does to the world, whatever is answered:
    nothing before the credential check passes, then exactly one call,
    never an upload, and a metadata entry only together with a 202. *)
Lemma create_job_cases E img pbr rm tx am w :
  let res := (run (create_job E img pbr rm tx am) w).1 in
  let w' := (run (create_job E img pbr rm tx am) w).2 in
  (w' = w ∧ ∃ e, _meshy_headers E = Raise e ∧ res = Raise e) ∨
  (∃ h, _meshy_headers E = Ok h ∧
        uploads w' = uploads w ∧
        trace w' = (trace w ++ [create_call E h img pbr rm tx am])%list ∧
        ((metas w' = metas w ∧ ∀ resp, res = Ok resp → code resp ≠ 202 ∨
                                        ∃ id, write_ok E (meta_path E id) = false) ∨
         (∃ id, res = Ok (json_response 202 [("task_id", JStr id)]) ∧
                metas w' = (metas w ++ [(meta_path E id, job_meta img pbr rm tx am)])%list))).
Proof.
  cbv zeta. unfold create_job. rewrite run_lift_bind.
  destruct (_meshy_headers E) as [h|e] eqn:Hh; [|left; eauto].
  right. exists h. split; [done|]. rewrite run_http_bind.
  fold (create_call E h img pbr rm tx am). set (c := create_call _ _ _ _ _ _ _).
  destruct (upstream E (trace w) c) as [resp|e]; [|simpl; repeat split; try done; left; done].
  destruct (ok resp) eqn:Hok; simpl negb; cbv iota.
  2:{ simpl. repeat split; try done. left. split; [done|]. intros ? [= <-]. left. simpl.
      unfold ok in Hok. apply negb_false_iff, andb_true_iff in Hok as [H1 H2].
      apply Nat.leb_le in H1. lia. }
  rewrite run_lift_bind. destruct (json_of resp) as [j|e];
    [|simpl; repeat split; try done; left; done].
  rewrite run_lift_bind. destruct (get (or_empty j) "result" JNull) as [task_id|e];
    [|simpl; repeat split; try done; left; done].
  destruct (truthy task_id) eqn:Htr; simpl negb; cbv iota.
  2:{ simpl. repeat split; try done. left. split; [done|]. intros ? [= <-]. left. simpl. lia. }
  unfold _save_meta.
  destruct task_id as [| | | |id| |];
    try (rewrite run_lift_bind; simpl; repeat split; try done; left; done).
  destruct (makedirs_ok E (path_join (OUTPUTS_DIR E) id));
    [|rewrite run_lift_bind; simpl; repeat split; try done; left; done].
  fold (meta_path E id). unfold write_meta. rewrite run_bind. cbn [run].
  destruct (write_ok E (meta_path E id)) eqn:Hw; cbn [run mret M_ret fst snd].
  - repeat split; try done. right. exists id. done.
  - repeat split; try done. left. split; [done|]. intros ? _. right. eauto.
Qed.

(** Either the request is turned down before anything happens, or the
    handler is the remote creation, run after the upload has been
    stored. *)
Lemma process_image_reads E r w :
  (process_image E r w).2 = w ∨
  ∃ pbr rm tx am img w0,
    trace w0 = trace w ∧ metas w0 = metas w ∧
    (uploads w0 = uploads w ∨ ∃ path data, uploads w0 = (uploads w ++ [(path, data)])%list) ∧
    process_image E r w = handle (create_job E img pbr rm tx am) w0.
Proof.
  destruct (get_flag r "enable_pbr" true) as [pbr|e] eqn:H1;
    [|left; unfold process_image, handle; rewrite H1, run_lift_bind; by destruct e].
  destruct (get_flag r "should_remesh" true) as [rm|e] eqn:H2;
    [|left; unfold process_image, handle; rewrite H1, H2, !run_lift_bind; by destruct e].
  destruct (get_flag r "should_texture" true) as [tx|e] eqn:H3;
    [|left; unfold process_image, handle; rewrite H1, H2, H3, !run_lift_bind;
      by destruct e].
  destruct (parse_ai_model r) as [am|e] eqn:H4;
    [|left; unfold process_image, handle; rewrite H1, H2, H3, H4, !run_lift_bind;
      by destruct e].
  destruct (parse_image E r) as [parsed|e] eqn:H5;
    [|left; unfold process_image, handle; rewrite H1, H2, H3, H4, H5, !run_lift_bind;
      by destruct e].
  rewrite (process_image_read _ _ _ _ _ _ _ _ H1 H2 H3 H4 H5).
  destruct parsed as [img|]; [|by left].
  assert (∃ w0, run (persist_upload E img) w = (Ok (), w0) ∧ trace w0 = trace w ∧
                metas w0 = metas w ∧
                (uploads w0 = uploads w ∨
                 ∃ path data, uploads w0 = (uploads w ++ [(path, data)])%list))
    as (w0 & Hp & Ht & Hm & Hu).
  { unfold persist_upload, write_upload.
    destruct (image_bytes img); simpl; [|by eauto 10].
    destruct (write_ok E _); simpl; eauto 10. }
  assert (handle (persist_upload E img ≫= λ _,
                  create_job E img pbr rm tx (validate_ai_model am)) w
          = handle (create_job E img pbr rm tx (validate_ai_model am)) w0) as Hrun.
  { unfold handle. by rewrite run_bind, Hp. }
  assert (image_bytes img = None ∧ image_data_url img = None ∨
          handle
            match image_bytes img, image_data_url img with
            | None, None => mret (json_response 400 [("error", JStr no_image_msg)])
            | _, _ => persist_upload E img ≫= λ _,
                      create_job E img pbr rm tx (validate_ai_model am)
            end w
          = handle (create_job E img pbr rm tx (validate_ai_model am)) w0)
    as [[Hb Hi]|Hcreate]
    by (destruct (image_bytes img), (image_data_url img); auto).
  - left. by rewrite Hb, Hi.
  - right. exists pbr, rm, tx, (validate_ai_model am), img, w0. done.
Qed.

(** X21. Whatever the request and whatever the remote side answers,
    [process_image] makes at most one call, a POST to the configured URL
    with the bearer header and a 60 second timeout; it stores at most one
    upload and at most one metadata entry; and a metadata entry is
    stored only after that call and only together with a 202 answer. *)
Theorem process_image_shape (E : env) (r : request) (w : world) :
  let resp := (process_image E r w).1 in
  let w' := (process_image E r w).2 in
  (trace w' = trace w ∨
   ∃ key payload, MESHY_API_KEY E = Some key ∧
     trace w' = (trace w ++ [Post (MESHY_API_URL E) (auth key) payload 60])%list) ∧
  (uploads w' = uploads w ∨ ∃ path data, uploads w' = (uploads w ++ [(path, data)])%list) ∧
  (metas w' = metas w ∨
   ∃ id meta, metas w' = (metas w ++ [(meta_path E id, meta)])%list ∧
              code resp = 202 ∧ trace w' ≠ trace w).
Proof.
  cbv zeta.
  destruct (process_image_reads E r w)
    as [-> | (pbr & rm & tx & am & img & w0 & Ht & Hm & Hu & ->)];
    [repeat split; by left|].
  assert ((handle (create_job E img pbr rm tx am) w0).2
          = (run (create_job E img pbr rm tx am) w0).2 ∧
          ∀ resp, (run (create_job E img pbr rm tx am) w0).1 = Ok resp →
                  (handle (create_job E img pbr rm tx am) w0).1 = resp) as [Hw Hr].
  { unfold handle. destruct (run _ w0) as [[resp|[]] w1]; simpl;
      (split; [done|]); by intros ? [= <-]. }
  rewrite Hw. clear Hw.
  destruct (create_job_cases E img pbr rm tx am w0)
    as [[-> _]|(h & Hh & Hup & Htr & Hmeta)].
  - rewrite Ht, Hm. repeat split; [by left|done|by left].
  - apply headers_ok_inv in Hh as (key & Hk & _ & ->).
    rewrite Hup, Htr, Ht. split; [right; eauto|]. split; [done|].
    destruct Hmeta as [[-> _]|(id & Hres & ->)]; [left; congruence|].
    right. rewrite Hm. do 2 eexists. split; [reflexivity|]. split.
    + by rewrite (Hr _ Hres).
    + intros Heq. apply (f_equal length) in Heq. rewrite length_app in Heq.
      simpl in Heq. lia.
Qed.

(** *** Job creation, case by case *)

(** The creation once the remote side has answered. *)
Lemma process_image_answered E r w pbr rm tx am img key resp :
  reads_as E r pbr rm tx am img →
  MESHY_API_KEY E = Some key → key ≠ "" →
  upstream E (trace w) (create_call E (auth key) img pbr rm tx (validate_ai_model am))
    = Ok resp →
  ∃ w0, trace w0 = trace w ∧ metas w0 = metas w ∧
    process_image E r w =
      handle
        (if negb (ok resp) then
           mret (json_response (status_code resp)
                   [("error", JStr "Meshy create failed");
                    ("detail", default (JObj [("text", JStr (text resp))]) (resp_json resp))])
         else
           lift (json_of resp) ≫= λ j,
           lift (get (or_empty j) "result" JNull) ≫= λ task_id,
           if negb (truthy task_id) then
             mret (json_response 502
                     [("error", JStr "Invalid Meshy response"); ("detail", j)])
           else
             _save_meta E task_id (job_meta img pbr rm tx (validate_ai_model am)) ≫= λ _,
             mret (json_response 202 [("task_id", task_id)]))
        (called w0 (create_call E (auth key) img pbr rm tx (validate_ai_model am))).
Proof.
  intros (H1 & H2 & H3 & H4 & H5 & Hsrc) Hk Hne Hup.
  destruct (process_image_create E r w pbr rm tx am img H1 H2 H3 H4 H5 Hsrc)
    as (w0 & Ht & Hm & ->).
  exists w0. split; [done|split; [done|]].
  unfold handle at 1, create_job.
  rewrite (headers_with_key E key Hk Hne), run_lift_ok, run_http_bind.
  fold (create_call E (auth key) img pbr rm tx (validate_ai_model am)).
  rewrite Ht, Hup. reflexivity.
Qed.

(** X22. When the remote side answers the creation with an error
    status, that status and the remote body (or its text, when it is not
    JSON) are relayed under "Meshy create failed", and no metadata is
    stored. *)
Theorem process_image_relays_failure (E : env) (r : request) (w : world)
    pbr rm tx am img (key : string) (resp : response) :
  reads_as E r pbr rm tx am img →
  MESHY_API_KEY E = Some key → key ≠ "" →
  upstream E (trace w) (create_call E (auth key) img pbr rm tx (validate_ai_model am))
    = Ok resp →
  ok resp = false →
  (process_image E r w).1 =
    json_response (status_code resp)
      [("error", JStr "Meshy create failed");
       ("detail", match resp_json resp with
                  | Some body => body
                  | None => JObj [("text", JStr (text resp))]
                  end)] ∧
  metas (process_image E r w).2 = metas w.
Proof.
  intros Hread Hk Hne Hup Hok.
  destruct (process_image_answered E r w pbr rm tx am img key resp Hread Hk Hne Hup)
    as (w0 & _ & Hm & ->).
  rewrite Hok. change (negb false) with true. cbv iota. unfold handle.
  rewrite run_ret. simpl. split; [by destruct (resp_json resp)|done].
Qed.

Lemma url_request_reads E : reads_as E url_request true true true (JStr "latest") url_image.
Proof. repeat split. right. by eexists. Defined.

Lemma process_image_relays_failure_witness :
  (process_image failing_env url_request empty_world).1 =
    json_response 404
      [("error", JStr "Meshy create failed");
       ("detail", JObj [("text", JStr "not found")])].
Proof.
  apply (proj1 (process_image_relays_failure failing_env url_request empty_world
                  true true true (JStr "latest") url_image "k"
                  {| status_code := 404; resp_json := None;
                     text := "not found"; content := [] |}
                  (url_request_reads failing_env) eq_refl ltac:(discriminate)
                  eq_refl eq_refl)).
Defined.

(** X23. A creation the remote side answers successfully can still end
    in an error for the caller, after the call has been made and without
    any metadata: 502 when the answer carries no task id, 500 when the
    task id is not a string, and 500 when the task directory cannot be
    created. *)
Theorem process_image_accepted_not_stored (E : env) (r : request) (w : world)
    pbr rm tx am img (key : string) (resp : response) (j : json) :
  reads_as E r pbr rm tx am img →
  MESHY_API_KEY E = Some key → key ≠ "" →
  upstream E (trace w) (create_call E (auth key) img pbr rm tx (validate_ai_model am))
    = Ok resp →
  ok resp = true → resp_json resp = Some j → dict_like j = true →
  (truthy (field j "result") = false →
   (process_image E r w).1 =
     json_response 502 [("error", JStr "Invalid Meshy response"); ("detail", j)]) ∧
  (truthy (field j "result") = true → (∀ id, field j "result" ≠ JStr id) →
   code (process_image E r w).1 = 500) ∧
  (∀ id, field j "result" = JStr id → id ≠ "" →
         makedirs_ok E (path_join (OUTPUTS_DIR E) id) = false →
   code (process_image E r w).1 = 500) ∧
  ((truthy (field j "result") = false ∨
    (∀ id, field j "result" ≠ JStr id) ∨
    (∃ id, field j "result" = JStr id ∧
           makedirs_ok E (path_join (OUTPUTS_DIR E) id) = false)) →
   metas (process_image E r w).2 = metas w ∧
   trace (process_image E r w).2 =
     (trace w ++ [create_call E (auth key) img pbr rm tx (validate_ai_model am)])%list).
Proof.
  intros Hread Hk Hne Hup Hok Hj Hd.
  destruct (process_image_answered E r w pbr rm tx am img key resp Hread Hk Hne Hup)
    as (w0 & Ht & Hm & ->).
  rewrite Hok. change (negb true) with false. cbv iota. unfold handle, json_of.
  rewrite Hj, run_lift_ok. cbv beta. rewrite get_dict_like_null, run_lift_ok by done.
  cbv beta. set (c := create_call _ _ _ _ _ _ _).
  split; [|split; [|split]].
  - intros ->. reflexivity.
  - intros -> Hns. change (negb true) with false. cbv iota. unfold _save_meta.
    destruct (field j "result"); try reflexivity. by destruct (Hns s).
  - intros id Hid Hidne Hmk. rewrite Hid.
    assert (truthy (JStr id) = true) as ->
      by (simpl; by destruct (String.eqb_spec id "")).
    change (negb true) with false. cbv iota. unfold _save_meta. by rewrite Hmk.
  - intros Hcase.
    assert ((run (if negb (truthy (field j "result")) then
                    mret (json_response 502
                            [("error", JStr "Invalid Meshy response"); ("detail", j)])
                  else
                    _save_meta E (field j "result")
                      (job_meta img pbr rm tx (validate_ai_model am)) ≫= λ _,
                    mret (json_response 202 [("task_id", field j "result")]))
               (called w0 c)).2 = called w0 c) as Hworld.
    { destruct (truthy (field j "result")) eqn:Htr; [|done].
      change (negb true) with false. cbv iota. unfold _save_meta.
      destruct Hcase as [?|[Hns|(id & Hid & Hmk)]]; [done| |].
      - destruct (field j "result"); try reflexivity. by destruct (Hns s).
      - rewrite Hid. by rewrite Hmk. }
    destruct (run _ (called w0 c)) as [[?|[]] w1]; simpl in *; subst w1; simpl;
      by rewrite ?Hm, ?Ht.
Qed.

Lemma process_image_accepted_not_stored_witness :
  code (process_image odd_env url_request empty_world).1 = 500.
Proof.
  apply (proj1 (proj2 (process_image_accepted_not_stored odd_env url_request empty_world
                  true true true (JStr "latest") url_image "k"
                  {| status_code := 200;
                     resp_json := Some (JObj [("result", JInt 7)]);
                     text := ""; content := [] |}
                  (JObj [("result", JInt 7)])
                  (url_request_reads odd_env) eq_refl ltac:(discriminate)
                  eq_refl eq_refl eq_refl eq_refl))).
  - reflexivity.
  - discriminate.
Defined.

(** *** Reading the request, edge cases *)

(** X24. A request announced as JSON whose body does not parse, or
    parses to a non-empty value that is not an object, is answered 500
    "Internal server error"; nothing is called and nothing is stored. *)
Theorem process_image_bad_body (E : env) (r : request) (w : world) :
  is_json r = true →
  json_body r = None ∨ (∃ body, json_body r = Some body ∧ dict_like body = false) →
  ∃ detail,
    process_image E r w =
      (json_response 500
         [("error", JStr "Internal server error"); ("detail", JStr detail)], w).
Proof.
  intros Hj Hbody.
  assert (∃ e, get_flag r "enable_pbr" true = Raise e ∧ ∀ msg, e ≠ RuntimeError msg)
    as (e & He & Hnr).
  { unfold get_flag, request_json. rewrite Hj.
    destruct Hbody as [-> | (body & -> & Hd)]; [by eexists|].
    simpl. unfold dict_like in Hd. unfold get.
    destruct (or_empty body); try done; by eexists. }
  unfold process_image, handle. rewrite He, run_lift_bind.
  destruct e; try (by eexists). by destruct (Hnr msg).
Qed.

Lemma process_image_bad_body_witness :
  ∃ detail,
    process_image (sample_env (Some "k")) (json_request (JStr "hello")) empty_world =
      (json_response 500
         [("error", JStr "Internal server error"); ("detail", JStr detail)], empty_world).
Proof.
  apply process_image_bad_body; [reflexivity|].
  right. eexists. split; reflexivity.
Defined.



(** X26. A multipart upload of a named file, with a credential: the one
    call made carries the file's bytes as a [data:image/png;base64,] URI,
    whatever the file's type, and when the write goes through the bytes
    are stored under uploads as <stamp>_<file name>.bin. *)
Theorem process_image_multipart (E : env) (r : request) (w : world)
    (file : file_storage) (name key : string) :
  is_multipart r = true → is_json r = false →
  assoc "image" (files r) = Some file → filename file = Some name → name ≠ "" →
  MESHY_API_KEY E = Some key → key ≠ "" →
  let path := path_join (UPLOADS_DIR E) (up_id E ++ "_" ++ name ++ ".bin") in
  (∃ pbr rm tx ai_model,
     trace (process_image E r w).2 =
       (trace w ++
        [Post (MESHY_API_URL E) (auth key)
           (JObj [("image_url",
                   JStr ("data:image/png;base64," ++ b64encode E (read file)));
                  ("enable_pbr", JBool pbr); ("should_remesh", JBool rm);
                  ("should_texture", JBool tx); ("ai_model", JStr ai_model)])
           60])%list) ∧
  uploads (process_image E r w).2 =
    if write_ok E path then (uploads w ++ [(path, read file)])%list else uploads w.
Proof.
  intros Hm Hj Hfile Hname Hne Hk Hkne path.
  destruct (get_flag_form r "enable_pbr" true Hj) as [pbr H1].
  destruct (get_flag_form r "should_remesh" true Hj) as [rm H2].
  destruct (get_flag_form r "should_texture" true Hj) as [tx H3].
  destruct (parse_ai_model_form r Hj) as [am H4].
  pose proof (parse_image_multipart E r Hm) as H5.
  assert (has_file r = true) as Hhas.
  { unfold has_file. rewrite Hfile, Hname. by destruct (String.eqb_spec name ""). }
  rewrite Hfile, Hhas, Hname in H5.
  rewrite (process_image_read _ _ _ _ _ _ _ _ H1 H2 H3 H4 H5). cbn [image_bytes].
  set (img := {| image_bytes := Some (read file); image_data_url := None;
                 original_filename := Some name |}).
  rewrite handle_world, run_bind.
  unfold persist_upload at 1 2, write_upload. cbn [image_bytes original_filename img run].
  change (default "upload" (Some name)) with name. fold path.
  set (w0 := if write_ok E path
             then {| trace := trace w; metas := metas w;
                     uploads := uploads w ++ [(path, read file)] |}
             else w).
  assert (trace w0 = trace w ∧
          uploads w0 = if write_ok E path
                       then (uploads w ++ [(path, read file)])%list else uploads w)
    as [Ht Hu] by (unfold w0; by destruct (write_ok E path)).
  destruct (create_job_cases E img pbr rm tx (validate_ai_model am) w0)
    as [[_ (e & Hh & _)]|(h & Hh & Hup & Htr & _)];
    rewrite (headers_with_key E key Hk Hkne) in Hh; [done|].
  injection Hh as <-. rewrite Hup, Htr, Ht, Hu. split; [|done].
  by exists pbr, rm, tx, (validate_ai_model am).
Qed.

Lemma process_image_multipart_witness :
  uploads (process_image (sample_env (Some "k"))
             (upload_request "cat.jpg" [Byte.x01; Byte.x02] []) empty_world).2
  = [("data/uploads/20250101_000000_deadbeef_cat.jpg.bin", [Byte.x01; Byte.x02])].
Proof.
  apply (proj2 (process_image_multipart (sample_env (Some "k"))
                  (upload_request "cat.jpg" [Byte.x01; Byte.x02] []) empty_world
                  {| filename := Some "cat.jpg"; read := [Byte.x01; Byte.x02] |}
                  "cat.jpg" "k" eq_refl eq_refl eq_refl eq_refl
                  ltac:(discriminate) eq_refl ltac:(discriminate))).
Defined.



(** X28. The same text does not mean the same flag in both encodings:
    a non-empty string other than 1, true, on, yes (in any case), such
    as "false" or "0", switches the option off in a form field and on
    in a JSON body. *)
Theorem flag_text_differs (r : request) (name : string) (dflt : bool) (s : string) :
  s ≠ "" → str_in (lower s) ["1"; "true"; "on"; "yes"] = false →
  (is_json r = false → assoc name (form r) = Some s →
   get_flag r name dflt = Ok false) ∧
  (∀ body, is_json r = true → json_body r = Some body → dict_like body = true →
           field body name = JStr s →
   get_flag r name dflt = Ok true).
Proof.
  intros Hne Hno. split.
  - intros Hj Hs. unfold get_flag. by rewrite Hj, Hs, Hno.
  - intros body Hj Hb Hd Hs. unfold get_flag, request_json. rewrite Hj, Hb. simpl.
    rewrite get_dict_like by done. rewrite field_dict in Hs by done.
    destruct (assoc name (fields_of body)) as [v|]; [|done]. simpl in Hs. subst v.
    simpl. by destruct (String.eqb_spec s "").
Qed.

Lemma flag_text_differs_witness :
  get_flag (multipart_request []) "enable_pbr" true = Ok true ∧
  get_flag (json_request (JObj [("enable_pbr", JStr "false")])) "enable_pbr" true = Ok true.
Proof.
  split; [reflexivity|].
  apply (proj2 (flag_text_differs (json_request (JObj [("enable_pbr", JStr "false")]))
                  "enable_pbr" true "false" ltac:(discriminate) eq_refl)
           (JObj [("enable_pbr", JStr "false")])); reflexivity.
Defined.

Lemma lower_ascii_idempotent c : lower_ascii (lower_ascii c) = lower_ascii c.
Proof. destruct c as [[] [] [] [] [] [] [] []]; vm_compute; reflexivity. Qed.

Lemma lower_idempotent s : lower (lower s) = lower s.
Proof. induction s as [|c s IH]; simpl; [done|]. by rewrite lower_ascii_idempotent, IH. Qed.

Lemma lower_empty s : (lower s =? "") = (s =? "").
Proof. by destruct s. Qed.

(** X29. The format parameter is read without regard to case, and a
    missing or empty one as glb: a request with [format=f] gets the
    answer of the request with [format=lower(f)], and a request without
    format the answer of [format=glb]. *)
Theorem get_result_format_case (E : env) (r1 r2 : request) (id : string) (w : world) :
  (∀ f, assoc "format" (args r1) = Some f → assoc "format" (args r2) = Some (lower f) →
        get_result E r1 id w = get_result E r2 id w) ∧
  (assoc "format" (args r1) = None ∨ assoc "format" (args r1) = Some "" →
   assoc "format" (args r2) = Some "glb" →
   get_result E r1 id w = get_result E r2 id w).
Proof.
  assert (fmt_of r1 = fmt_of r2 → get_result E r1 id w = get_result E r2 id w) as Hfmt.
  { intros Heq. unfold get_result. by rewrite Heq. }
  split.
  - intros f H1 H2. apply Hfmt. unfold fmt_of. rewrite H1, H2, lower_empty.
    destruct (f =? ""); [done|]. by rewrite lower_idempotent.
  - intros H1 H2. apply Hfmt. unfold fmt_of. rewrite H2.
    by destruct H1 as [-> | ->].
Qed.

Lemma get_result_format_case_witness :
  get_result done_env (query_request [("format", "GLB")]) "t" empty_world
  = get_result done_env (query_request [("format", "glb")]) "t" empty_world.
Proof.
  apply (proj1 (get_result_format_case done_env
                  (query_request [("format", "GLB")]) (query_request [("format", "glb")])
                  "t" empty_world) "GLB"); reflexivity.
Defined.
End ProxyMoreFacts.
